(** * nctl: cluster authentication, verified against its specification

    A shallow embedding of [auth/cluster.go] (the cluster resolver and the
    [ClusterCmd.Run] pipeline) and of [api/client.go] ([LoadingRules]),
    together with the parts of the Go standard library that these
    functions call.

    Go strings are byte sequences: they are embedded as [string], whose
    characters ([ascii]) are bytes.  Go's [int] is embedded as [Z]. *)

From Stdlib Require Import String Ascii List ZArith NArith Bool Lia.
Import ListNotations.

Local Open Scope string_scope.
Local Open Scope Z_scope.

(** ** Errors and results *)

(** Go's [error] values, as far as this program creates or forwards them. *)
Inductive error : Type :=
| errorString (s : string)
    (** [errors.New(s)], and [fmt.Errorf] without a [%w] verb *)
| wrapError (msg : string) (err : error)
    (** [fmt.Errorf(msg + "%w", err)]: the text before the wrapped cause,
        and the cause that [errors.Unwrap] gives back *)
| url_Error (Op URL : string) (Err : error)
    (** [*url.Error] *)
| EscapeError (s : string)
| InvalidHostError (s : string)
| InvalidPortError (colonPort : string)
    (** [fmt.Errorf("invalid port %q after host", colonPort)] *)
| CorruptInputError (n : Z)
    (** [base64.CorruptInputError] *)
| StatusError (reason : string).
    (** an error of the resource API (not found, forbidden, ...) *)

(** A Go result pair [(value, err)] of which exactly one is meaningful. *)
Inductive result (A : Type) : Type :=
| Ok (a : A)
| Err (e : error).
Arguments Ok {A} a.
Arguments Err {A} e.

Definition is_Err {A} (r : result A) : bool :=
  match r with Ok _ => false | Err _ => true end.

(** [v, err := f(); if err != nil { return err }] *)
Definition and_then {A B} (r : result A) (k : A -> result B) : result B :=
  match r with
  | Ok a => k a
  | Err e => Err e
  end.

Notation "'let?' x ':=' r 'in' k" := (and_then r (fun x => k))
  (at level 10, x pattern, r at level 100, k at level 200).

(** ** Bytes and slices *)

Definition byte_val (c : ascii) : Z := Z.of_N (N_of_ascii c).

Definition len (s : string) : Z := Z.of_nat (String.length s).

(** [s[:n]] *)
Fixpoint take (n : nat) (s : string) : string :=
  match n, s with
  | S n', String c s' => String c (take n' s')
  | _, _ => EmptyString
  end.

(** [s[n:]] *)
Fixpoint drop (n : nat) (s : string) : string :=
  match n, s with
  | S n', String _ s' => drop n' s'
  | _, _ => s
  end.

(** [s[lo:hi]] *)
Definition slice (s : string) (lo hi : Z) : string :=
  take (Z.to_nat (hi - lo)) (drop (Z.to_nat lo) s).

(** ** Package [strings]

    [clusterName] splits at the constant ["/"].  For a separator of one
    byte [strings.Count] is [bytealg.CountString] and the search in
    [genSplit] is [strings.IndexByte]; the separator of [Split] is
    therefore a byte here.  [Index], [Cut] and the prefix tests, which
    package [net/url] calls, take a string. *)
Module strings.

(** [strings.IndexByte]: index of the first [c] in [s], or -1. *)
Fixpoint IndexByte (s : string) (c : ascii) : Z :=
  match s with
  | EmptyString => -1
  | String b s' =>
      if Ascii.eqb b c then 0
      else let i := IndexByte s' c in
           if i <? 0 then -1 else i + 1
  end.

(** [bytealg.CountString]: number of bytes of [s] equal to [c]. *)
Fixpoint CountString (s : string) (c : ascii) : Z :=
  match s with
  | EmptyString => 0
  | String b s' => (if Ascii.eqb b c then 1 else 0) + CountString s' c
  end.

(** The loop of [genSplit]: [k] is the number of iterations left
    ([n - i] in the source), [s] the rest of the input. *)
Fixpoint genSplit_loop (k : nat) (s : string) (sep : ascii) : list string :=
  match k with
  | O => [s]
  | S k' =>
      let m := IndexByte s sep in
      if m <? 0 then [s]
      else slice s 0 m :: genSplit_loop k' (slice s (m + 1) (len s)) sep
  end.

(** [genSplit(s, sep, 0, -1)] *)
Definition genSplit (s : string) (sep : ascii) : list string :=
  let n := CountString s sep + 1 in
  let n := if len s + 1 <? n then len s + 1 else n in
  genSplit_loop (Z.to_nat (n - 1)) s sep.

Definition Split (s : string) (sep : ascii) : list string := genSplit s sep.

Definition HasPrefix (s pre : string) : bool := String.prefix pre s.

Definition HasSuffix (s suffix : string) : bool :=
  (len suffix <=? len s) &&
  String.eqb (slice s (len s - len suffix) (len s)) suffix.

(** [strings.Index]: index of the first instance of [substr], or -1. *)
Fixpoint Index (s substr : string) : Z :=
  if String.prefix substr s then 0
  else match s with
       | EmptyString => -1
       | String _ s' =>
           let i := Index s' substr in
           if i <? 0 then -1 else i + 1
       end.

Definition Contains (s substr : string) : bool := 0 <=? Index s substr.

(** [strings.LastIndexByte] *)
Fixpoint LastIndexByte (s : string) (c : ascii) : Z :=
  match s with
  | EmptyString => -1
  | String b s' =>
      let i := LastIndexByte s' c in
      if 0 <=? i then i + 1
      else if Ascii.eqb b c then 0 else -1
  end.

(** [strings.Cut]: [(before, after, found)] *)
Definition Cut (s sep : string) : string * string * bool :=
  let i := Index s sep in
  if 0 <=? i then (slice s 0 i, slice s (i + len sep) (len s), true)
  else (s, "", false).

(** [strings.ToLower] on ASCII bytes (a URL scheme has no others) *)
Definition lower_byte (c : ascii) : ascii :=
  if (byte_val "A" <=? byte_val c) && (byte_val c <=? byte_val "Z")
  then ascii_of_N (N_of_ascii c + 32) else c.

Fixpoint ToLower (s : string) : string :=
  match s with
  | EmptyString => EmptyString
  | String c s' => String (lower_byte c) (ToLower s')
  end.

End strings.

(** ** Package [fmt]: [Sprintf] on string operands

    The verbs [%s] and [%v] print a string operand as it is, [%%] prints
    a percent sign; an operand that is missing prints as
    [%!s(MISSING)], operands left over as [%!(EXTRA string=...)], and a
    verb that strings do not have as [%!d(string=...)].  Flags, widths
    and the verbs [%q], [%x], [%X] are outside this fragment; the
    program's formats use [%s] only ([%w] is handled by [Errorf_w]). *)
Module fmt.

Fixpoint extra (args : list string) : string :=
  match args with
  | [] => ""
  | [a] => "string=" ++ a
  | a :: rest => "string=" ++ a ++ ", " ++ extra rest
  end.

Fixpoint doPrintf (format : string) (args : list string) : string :=
  match format with
  | EmptyString =>
      match args with
      | [] => ""
      | _ => "%!(EXTRA " ++ extra args ++ ")"
      end
  | String "%" EmptyString => "%!(NOVERB)"
  | String "%" (String "%" rest) => String "%" (doPrintf rest args)
  | String "%" (String verb rest) =>
      if (Ascii.eqb verb "s" || Ascii.eqb verb "v")%bool then
        match args with
        | a :: args' => a ++ doPrintf rest args'
        | [] => "%!" ++ String verb "(MISSING)" ++ doPrintf rest []
        end
      else
        match args with
        | a :: args' =>
            "%!" ++ String verb ("(string=" ++ a ++ ")") ++ doPrintf rest args'
        | [] => "%!" ++ String verb "(MISSING)" ++ doPrintf rest []
        end
  | String c rest => String c (doPrintf rest args)
  end.

Definition Sprintf (format : string) (args : list string) : string :=
  doPrintf format args.

(** [fmt.Errorf] with a constant message *)
Definition Errorf (msg : string) : error := errorString msg.

(** [fmt.Errorf(msg + "%w", err)] *)
Definition Errorf_w (msg : string) (err : error) : error := wrapError msg err.

End fmt.

(** ** Package [net/url]: [url.Parse] *)
Module url.

Record Userinfo : Type := {
  username : string;
  password : string;
  passwordSet : bool
}.

Record URL : Type := {
  Scheme : string;
  Opaque : string;
  User : option Userinfo;
  Host : string;
  Path : string;
  RawPath : string;
  OmitHost : bool;
  ForceQuery : bool;
  RawQuery : string;
  Fragment : string;
  RawFragment : string
}.

(** [new(URL)] *)
Definition zero : URL :=
  {| Scheme := ""; Opaque := ""; User := None; Host := ""; Path := "";
     RawPath := ""; OmitHost := false; ForceQuery := false; RawQuery := "";
     Fragment := ""; RawFragment := "" |}.

Inductive encoding : Type :=
| encodePath
| encodePathSegment
| encodeHost
| encodeZone
| encodeUserPassword
| encodeQueryComponent
| encodeFragment.

Definition encoding_eqb (a b : encoding) : bool :=
  match a, b with
  | encodePath, encodePath
  | encodePathSegment, encodePathSegment
  | encodeHost, encodeHost
  | encodeZone, encodeZone
  | encodeUserPassword, encodeUserPassword
  | encodeQueryComponent, encodeQueryComponent
  | encodeFragment, encodeFragment => true
  | _, _ => false
  end.

(** [lo <= c && c <= hi] on bytes *)
Definition between (lo hi c : ascii) : bool :=
  (byte_val lo <=? byte_val c) && (byte_val c <=? byte_val hi).

Definition one_of (c : ascii) (set : string) : bool :=
  0 <=? strings.IndexByte set c.

(** the double-quote byte *)
Definition dquote : ascii := ascii_of_nat 34.

Definition ishex (c : ascii) : bool :=
  between "0" "9" c || between "a" "f" c || between "A" "F" c.

Definition unhex (c : ascii) : Z :=
  if between "0" "9" c then byte_val c - byte_val "0"
  else if between "a" "f" c then byte_val c - byte_val "a" + 10
  else if between "A" "F" c then byte_val c - byte_val "A" + 10
  else 0.

Definition byte_of (n : Z) : ascii := ascii_of_N (Z.to_N (n mod 256)).

Definition shouldEscape (c : ascii) (mode : encoding) : bool :=
  if between "a" "z" c || between "A" "Z" c || between "0" "9" c then false
  else if (encoding_eqb mode encodeHost || encoding_eqb mode encodeZone)
          && (one_of c "!$&'()*+,;=:[]<>" || Ascii.eqb c dquote) then false
  else if one_of c "-_.~" then false
  else if one_of c "$&+,/:;=?@" then
    match mode with
    | encodePath => Ascii.eqb c "?"
    | encodePathSegment =>
        Ascii.eqb c "/" || Ascii.eqb c ";" || Ascii.eqb c "," || Ascii.eqb c "?"
    | encodeUserPassword =>
        Ascii.eqb c "@" || Ascii.eqb c "/" || Ascii.eqb c "?" || Ascii.eqb c ":"
    | encodeQueryComponent => true
    | encodeFragment => false
    | encodeHost | encodeZone => true
    end
  else if encoding_eqb mode encodeFragment && one_of c "!()*" then false
  else true.

(** First loop of [unescape]: every [%] is followed by two hex digits,
    and a host holds no byte that would need escaping. *)
Fixpoint unescape_check (s : string) (mode : encoding) : option error :=
  match s with
  | EmptyString => None
  | String "%" rest =>
      match rest with
      | String h1 (String h2 rest') =>
          if negb (ishex h1) || negb (ishex h2) then Some (EscapeError (take 3 s))
          else if encoding_eqb mode encodeHost && (unhex h1 <? 8)
                  && negb (String.eqb (take 3 s) "%25")
          then Some (EscapeError (take 3 s))
          else if encoding_eqb mode encodeZone
                  && negb (String.eqb (take 3 s) "%25")
                  && negb (Ascii.eqb (byte_of (unhex h1 * 16 + unhex h2)) " ")
                  && shouldEscape (byte_of (unhex h1 * 16 + unhex h2)) encodeHost
          then Some (EscapeError (take 3 s))
          else unescape_check rest' mode
      | _ => Some (EscapeError (take 3 s))
      end
  | String c rest =>
      if Ascii.eqb c "+" then unescape_check rest mode
      else if (encoding_eqb mode encodeHost || encoding_eqb mode encodeZone)
              && (byte_val c <? 128) && shouldEscape c encodeHost
      then Some (InvalidHostError (String c EmptyString))
      else unescape_check rest mode
  end.

(** Second loop of [unescape], on a string that passed the first. *)
Fixpoint unescape_decode (s : string) (mode : encoding) : string :=
  match s with
  | EmptyString => EmptyString
  | String "%" (String h1 (String h2 rest')) =>
      String (byte_of (unhex h1 * 16 + unhex h2)) (unescape_decode rest' mode)
  | String c rest =>
      if Ascii.eqb c "+" && encoding_eqb mode encodeQueryComponent
      then String " " (unescape_decode rest mode)
      else String c (unescape_decode rest mode)
  end.

Definition unescape (s : string) (mode : encoding) : result string :=
  match unescape_check s mode with
  | Some e => Err e
  | None => Ok (unescape_decode s mode)
  end.

Definition upperhex (n : Z) : ascii :=
  match take 1 (drop (Z.to_nat n) "0123456789ABCDEF") with
  | String c _ => c
  | EmptyString => "0"%char
  end.

Fixpoint escape (s : string) (mode : encoding) : string :=
  match s with
  | EmptyString => EmptyString
  | String c rest =>
      if shouldEscape c mode then
        if Ascii.eqb c " " && encoding_eqb mode encodeQueryComponent
        then String "+" (escape rest mode)
        else String "%" (String (upperhex (byte_val c / 16))
                           (String (upperhex (byte_val c mod 16)) (escape rest mode)))
      else String c (escape rest mode)
  end.

Fixpoint stringContainsCTLByte (s : string) : bool :=
  match s with
  | EmptyString => false
  | String b rest =>
      if (byte_val b <? byte_val " ") || (byte_val b =? 127) then true
      else stringContainsCTLByte rest
  end.

(** [getScheme]: [(scheme, path)], or an error.  [i] is the index of the
    byte at the head of [s], [seen] the bytes before it. *)
Fixpoint getScheme_loop (rawURL seen s : string) (i : Z) : result (string * string) :=
  match s with
  | EmptyString => Ok ("", rawURL)
  | String c rest =>
      if between "a" "z" c || between "A" "Z" c
      then getScheme_loop rawURL (seen ++ String c EmptyString) rest (i + 1)
      else if between "0" "9" c || one_of c "+-."
      then if i =? 0 then Ok ("", rawURL)
           else getScheme_loop rawURL (seen ++ String c EmptyString) rest (i + 1)
      else if Ascii.eqb c ":"
      then if i =? 0 then Err (errorString "missing protocol scheme")
           else Ok (seen, rest)
      else Ok ("", rawURL)
  end.

Definition getScheme (rawURL : string) : result (string * string) :=
  getScheme_loop rawURL "" rawURL 0.

Fixpoint all_bytes (p : ascii -> bool) (s : string) : bool :=
  match s with
  | EmptyString => true
  | String c rest => p c && all_bytes p rest
  end.

Definition validOptionalPort (port : string) : bool :=
  match port with
  | EmptyString => true
  | String c rest =>
      if negb (Ascii.eqb c ":") then false
      else all_bytes (between "0" "9") rest
  end.

Definition validUserinfo (s : string) : bool :=
  all_bytes (fun r =>
    between "A" "Z" r || between "a" "z" r || between "0" "9" r
    || one_of r "-._:~!$&'()*+,;=%@") s.

Definition parseHost (host : string) : result string :=
  let tail : result string := unescape host encodeHost in
  if strings.HasPrefix host "[" then
    let i := strings.LastIndexByte host "]" in
    if i <? 0 then Err (errorString "missing ']' in host")
    else
      let colonPort := slice host (i + 1) (len host) in
      if negb (validOptionalPort colonPort) then Err (InvalidPortError colonPort)
      else
        let zone := strings.Index (slice host 0 i) "%25" in
        if 0 <=? zone then
          let? host1 := unescape (slice host 0 zone) encodeHost in
          let? host2 := unescape (slice host zone i) encodeZone in
          let? host3 := unescape (slice host i (len host)) encodeHost in
          Ok (host1 ++ host2 ++ host3)
        else tail
  else
    let i := strings.LastIndexByte host ":" in
    if negb (i =? -1) then
      let colonPort := slice host i (len host) in
      if negb (validOptionalPort colonPort) then Err (InvalidPortError colonPort)
      else tail
    else tail.

Definition parseAuthority (authority : string) : result (option Userinfo * string) :=
  let i := strings.LastIndexByte authority "@" in
  let? host :=
    (if i <? 0 then parseHost authority
     else parseHost (slice authority (i + 1) (len authority))) in
  if i <? 0 then Ok (None, host)
  else
    let userinfo := slice authority 0 i in
    if negb (validUserinfo userinfo) then Err (errorString "net/url: invalid userinfo")
    else if negb (strings.Contains userinfo ":") then
      let? userinfo := unescape userinfo encodeUserPassword in
      Ok (Some {| username := userinfo; password := ""; passwordSet := false |}, host)
    else
      let '(username, password, _) := strings.Cut userinfo ":" in
      let? username := unescape username encodeUserPassword in
      let? password := unescape password encodeUserPassword in
      Ok (Some {| username := username; password := password; passwordSet := true |},
          host).

(** [URL.setPath]: the new [Path] and [RawPath] *)
Definition setPath (p : string) : result (string * string) :=
  let? path := unescape p encodePath in
  if String.eqb p (escape path encodePath) then Ok (path, "") else Ok (path, p).

(** [URL.setFragment]: the new [Fragment] and [RawFragment] *)
Definition setFragment (f : string) : result (string * string) :=
  let? frag := unescape f encodeFragment in
  if String.eqb f (escape frag encodeFragment) then Ok (frag, "") else Ok (frag, f).

Definition parse (rawURL : string) (viaRequest : bool) : result URL :=
  if stringContainsCTLByte rawURL
  then Err (errorString "net/url: invalid control character in URL")
  else if String.eqb rawURL "" && viaRequest then Err (errorString "empty url")
  else if String.eqb rawURL "*"
  then Ok {| Scheme := ""; Opaque := ""; User := None; Host := ""; Path := "*";
             RawPath := ""; OmitHost := false; ForceQuery := false;
             RawQuery := ""; Fragment := ""; RawFragment := "" |}
  else
    let? (scheme, rest) := getScheme rawURL in
    let scheme := strings.ToLower scheme in
    let '(rest, rawQuery, forceQuery) :=
      if strings.HasSuffix rest "?" && (strings.CountString rest "?" =? 1)
      then (slice rest 0 (len rest - 1), "", true)
      else let '(before, after, _) := strings.Cut rest "?" in (before, after, false) in
    let authority_and_path : result URL :=
      let? (user, host, omitHost, rest) :=
        (if (negb (String.eqb scheme "")
             || (negb viaRequest && negb (strings.HasPrefix rest "///")))
            && strings.HasPrefix rest "//"
         then
           let authority := slice rest 2 (len rest) in
           let i := strings.Index authority "/" in
           let '(authority, rest) :=
             if 0 <=? i
             then (slice authority 0 i, slice authority i (len authority))
             else (authority, "") in
           let? (user, host) := parseAuthority authority in
           Ok (user, host, false, rest)
         else if negb (String.eqb scheme "") && strings.HasPrefix rest "/"
         then Ok (None, "", true, rest)
         else Ok (None, "", false, rest)) in
      let? (path, rawPath) := setPath rest in
      Ok {| Scheme := scheme; Opaque := ""; User := user; Host := host;
            Path := path; RawPath := rawPath; OmitHost := omitHost;
            ForceQuery := forceQuery; RawQuery := rawQuery;
            Fragment := ""; RawFragment := "" |} in
    if negb (strings.HasPrefix rest "/") then
      if negb (String.eqb scheme "")
      then Ok {| Scheme := scheme; Opaque := rest; User := None; Host := "";
                 Path := ""; RawPath := ""; OmitHost := false;
                 ForceQuery := forceQuery; RawQuery := rawQuery;
                 Fragment := ""; RawFragment := "" |}
      else if viaRequest then Err (errorString "invalid URI for request")
      else
        let '(segment, _, _) := strings.Cut rest "/" in
        if strings.Contains segment ":"
        then Err (errorString "first path segment in URL cannot contain colon")
        else authority_and_path
    else authority_and_path.

(** [url.Parse] *)
Definition Parse (rawURL : string) : result URL :=
  let '(u, frag, _) := strings.Cut rawURL "#" in
  match parse u false with
  | Err err => Err (url_Error "parse" u err)
  | Ok url =>
      if String.eqb frag "" then Ok url
      else
        match setFragment frag with
        | Err err => Err (url_Error "parse" rawURL err)
        | Ok (fragment, rawFragment) =>
            Ok {| Scheme := Scheme url; Opaque := Opaque url; User := User url;
                  Host := Host url; Path := Path url; RawPath := RawPath url;
                  OmitHost := OmitHost url; ForceQuery := ForceQuery url;
                  RawQuery := RawQuery url;
                  Fragment := fragment; RawFragment := rawFragment |}
        end
  end.

End url.

(** ** Package [encoding/base64]: [StdEncoding.DecodeString]

    [Decode] decodes quantum by quantum; its 8- and 4-byte fast paths
    compute what [decodeQuantum] computes and are left out.
    [StdEncoding] pads with [=] and is not strict. *)
Module base64.

(** [enc.decodeMap] of [StdEncoding]; 255 marks a byte outside the alphabet *)
Definition decodeMap (c : ascii) : Z :=
  if url.between "A" "Z" c then byte_val c - byte_val "A"
  else if url.between "a" "z" c then byte_val c - byte_val "a" + 26
  else if url.between "0" "9" c then byte_val c - byte_val "0" + 52
  else if Ascii.eqb c "+" then 62
  else if Ascii.eqb c "/" then 63
  else 255.

Definition padChar : ascii := "=".

Definition newline (c : ascii) : bool :=
  Ascii.eqb c (ascii_of_nat 10) || Ascii.eqb c (ascii_of_nat 13).

(** [for si < len(src) && (src[si] == '\n' || src[si] == '\r') { si++ }] *)
Fixpoint skip_newlines (src : string) (si : Z) : string * Z :=
  match src with
  | String c rest => if newline c then skip_newlines rest (si + 1) else (src, si)
  | EmptyString => (src, si)
  end.

(** The three bytes of a quantum, cut to the [dlen - 1] that are valid *)
Definition quantum_bytes (dbuf : list Z) (dlen : nat) : string :=
  let val := Z.lor (Z.lor (Z.shiftl (nth 0 dbuf 0) 18) (Z.shiftl (nth 1 dbuf 0) 12))
                   (Z.lor (Z.shiftl (nth 2 dbuf 0) 6) (nth 3 dbuf 0)) in
  take (dlen - 1)
    (String (url.byte_of (Z.shiftr val 16))
       (String (url.byte_of (Z.shiftr val 8))
          (String (url.byte_of val) EmptyString))).

(** [decodeQuantum]: [src] is the input from index [si] on, [total] is
    [len(src)] of the source, [j] counts the sextets in [dbuf].  Returns
    the rest of the input, the new index, the decoded bytes and the error. *)
Fixpoint decodeQuantum_loop (src : string) (si total : Z) (j : nat) (dbuf : list Z)
  : string * Z * string * option error :=
  match j with
  | 4%nat => (src, si, quantum_bytes dbuf 4, None)
  | _ =>
    match src with
    | EmptyString =>
        match j with
        | O => (src, si, "", None)
        | _ => (src, si, "", Some (CorruptInputError (si - Z.of_nat j)))
        end
    | String c rest =>
        let si := si + 1 in
        let out := decodeMap c in
        if negb (out =? 255) then decodeQuantum_loop rest si total (S j) (dbuf ++ [out])
        else if newline c then decodeQuantum_loop rest si total j dbuf
        else if negb (Ascii.eqb c padChar)
        then (rest, si, "", Some (CorruptInputError (si - 1)))
        else
          match j with
          | 0%nat | 1%nat => (rest, si, "", Some (CorruptInputError (si - 1)))
          | _ =>
            let after_pad (rest : string) (si : Z) :=
              let '(rest, si) := skip_newlines rest si in
              (rest, si, quantum_bytes dbuf j,
               match rest with
               | EmptyString => None
               | _ => Some (CorruptInputError si)
               end) in
            match j with
            | 2%nat =>
                let '(rest, si) := skip_newlines rest si in
                match rest with
                | EmptyString => (rest, si, "", Some (CorruptInputError total))
                | String c2 rest2 =>
                    if negb (Ascii.eqb c2 padChar)
                    then (rest, si, "", Some (CorruptInputError (si - 1)))
                    else after_pad rest2 (si + 1)
                end
            | _ => after_pad rest si
            end
          end
    end
  end.

Definition decodeQuantum (src : string) (si total : Z)
  : string * Z * string * option error :=
  decodeQuantum_loop src si total 0 [].

(** [for si < len(src) { ... decodeQuantum ... }]: every round on a
    non-empty rest consumes a byte, so [len(src)] rounds are enough. *)
Fixpoint Decode_loop (rounds : nat) (src : string) (si total : Z) (dst : string)
  : string * option error :=
  match src, rounds with
  | EmptyString, _ | _, O => (dst, None)
  | _, S rounds' =>
      let '(rest, si, out, err) := decodeQuantum src si total in
      match err with
      | Some e => (dst ++ out, Some e)
      | None => Decode_loop rounds' rest si total (dst ++ out)
      end
  end.

Definition DecodeString (s : string) : result string :=
  match Decode_loop (String.length s) s 0 (len s) "" with
  | (dbuf, None) => Ok dbuf
  | (_, Some err) => Err err
  end.

End base64.

(** ** Kubernetes and Nine API types *)
Module types.

(** [types.NamespacedName] *)
Record NamespacedName : Type := {
  Name : string;
  Namespace : string
}.

(** [NamespacedName.String]: namespace, separator, name *)
Definition NamespacedName_String (n : NamespacedName) : string :=
  Namespace n ++ "/" ++ Name n.

End types.

Module infrastructure.

(** [cluster.Status.AtProvider]: the fields that [ClusterCmd.Run] reads *)
Record KubernetesClusterObservation : Type := {
  APIEndpoint : string;
  OIDCIssuerURL : string;
  OIDCClientID : string;
  APICACert : string
}.

Record KubernetesClusterStatus : Type := {
  AtProvider : KubernetesClusterObservation
}.

(** [infrastructure.KubernetesCluster]; [Name] and [Namespace] are the
    fields of its object metadata. *)
Record KubernetesCluster : Type := {
  Name : string;
  Namespace : string;
  Status : KubernetesClusterStatus
}.

(** [cluster.Status.AtProvider.APIEndpoint] and its neighbours: the
    spec's [status.apiEndpoint], [status.oidcIssuerURL], [status.apiCACert] *)
Definition status_apiEndpoint (cluster : KubernetesCluster) : string :=
  APIEndpoint (AtProvider (Status cluster)).
Definition status_oidcIssuerURL (cluster : KubernetesCluster) : string :=
  OIDCIssuerURL (AtProvider (Status cluster)).
Definition status_apiCACert (cluster : KubernetesCluster) : string :=
  APICACert (AtProvider (Status cluster)).

End infrastructure.

(** ** Package [api] ([api/client.go]) *)
Module api.

(** [api.Client]: [Get] is the point lookup of the embedded
    [runtimeclient.WithWatch], as the resource API answers it. *)
Record Client : Type := {
  Get : types.NamespacedName -> result infrastructure.KubernetesCluster;
  KubeconfigPath : string;
  Namespace : string
}.

(** The process environment and the user database that [LoadingRules]
    consults. *)
Record OS : Type := {
  environ : string -> option string;
  user_Current : result string
    (** [user.Current()], reduced to [u.HomeDir] *)
}.

(** [os.LookupEnv] *)
Definition LookupEnv (os : OS) (key : string) : option string := environ os key.

(** [os.Getenv] *)
Definition Getenv (os : OS) (key : string) : string :=
  match environ os key with
  | Some v => v
  | None => ""
  end.

(** [clientcmd.ClientConfigLoadingRules], without its migration rules *)
Record ClientConfigLoadingRules : Type := {
  Precedence : list string;
  WarnIfAllMissing : bool
}.

Definition RecommendedConfigPathEnvVar : string := "KUBECONFIG".
Definition RecommendedHomeDir : string := ".kube".
Definition RecommendedFileName : string := "config".

(** [filepath.SplitList] on a Unix system *)
Definition SplitList (path : string) : list string :=
  if String.eqb path "" then [] else strings.Split path ":".

Definition mem (x : string) (l : list string) : bool := existsb (String.eqb x) l.

(** [deduplicate] of client-go: the first occurrence of every path *)
Fixpoint deduplicate_loop (encountered s : list string) : list string :=
  match s with
  | [] => []
  | x :: rest =>
      if mem x encountered then deduplicate_loop encountered rest
      else x :: deduplicate_loop (x :: encountered) rest
  end.

Definition deduplicate (s : list string) : list string := deduplicate_loop [] s.

Section LoadingRules.

(** [filepath.Join]: the lexical cleaning of paths is not embedded *)
Variable filepath_Join : list string -> string.

(** [clientcmd.RecommendedHomeFile]; [homedir.HomeDir()] is [$HOME] on a
    Unix system. *)
Definition RecommendedHomeFile (os : OS) : string :=
  filepath_Join [Getenv os "HOME"; RecommendedHomeDir; RecommendedFileName].

(** [clientcmd.NewDefaultClientConfigLoadingRules] *)
Definition NewDefaultClientConfigLoadingRules (os : OS) : ClientConfigLoadingRules :=
  let envVarFiles := Getenv os RecommendedConfigPathEnvVar in
  if negb (len envVarFiles =? 0)
  then {| Precedence := [] ++ deduplicate (SplitList envVarFiles);
          WarnIfAllMissing := true |}
  else {| Precedence := [] ++ [RecommendedHomeFile os];
          WarnIfAllMissing := false |}.

Definition LoadingRules (os : OS) : result ClientConfigLoadingRules :=
  let loadingRules := NewDefaultClientConfigLoadingRules os in
  match LookupEnv os "HOME" with
  | None =>
      match user_Current os with
      | Err err => Err (fmt.Errorf_w "could not get current user: " err)
      | Ok u_HomeDir =>
          Ok {| Precedence :=
                  Precedence loadingRules
                  ++ [filepath_Join [u_HomeDir; RecommendedHomeDir; RecommendedFileName]];
                WarnIfAllMissing := WarnIfAllMissing loadingRules |}
      end
  | Some _ => Ok loadingRules
  end.

End LoadingRules.

End api.

(** ** Package [auth] ([auth/cluster.go]) *)
Module auth.

Record ClusterCmd : Type := {
  Name : string;
  ExecPlugin : bool
}.

Definition clusterName (name namespace : string) : result types.NamespacedName :=
  let parts := strings.Split name "/" in
  let '(name, namespace) :=
    if Z.of_nat (List.length parts) =? 2
    then (nth 0 parts "", nth 1 parts "")
    else (name, namespace) in
  if String.eqb namespace ""
  then Err (fmt.Errorf "namespace cannot be empty")
  else Ok {| types.Name := name; types.Namespace := namespace |}.

Definition ContextName (cluster : infrastructure.KubernetesCluster) : string :=
  fmt.Sprintf "%s/%s" [infrastructure.Name cluster; infrastructure.Namespace cluster].

(** The options that [Run] passes to [newAPIConfig] and to [login] *)
Inductive apiConfigOption : Type :=
| overrideName (name : string)
| setCACert (caCert : string).

Inductive loginOption : Type :=
| runExecPlugin (enabled : bool)
| switchCurrentContext.

Section Run.

(** [newAPIConfig] and [login] live in [auth/login.go]; [Run] only calls
    them.  [Config] is the kubeconfig document that [newAPIConfig]
    builds, [Store] the file system that [login] writes it to. *)
Variables Config Store : Type.
Variable newAPIConfig :
  url.URL -> url.URL -> string -> string -> list apiConfigOption -> result Config.
Variable login : Config -> string -> list loginOption -> Store -> option error * Store.

(** The calls that leave [Run], in the order they are made *)
Inductive Call : Type :=
| Call_Get (name : types.NamespacedName)
| Call_newAPIConfig (apiEndpoint issuerURL : url.URL) (command clientID : string)
    (opts : list apiConfigOption)
| Call_login (cfg : Config) (kubeconfigPath : string) (opts : list loginOption).

(** What a run can read and change outside its arguments *)
Record World : Type := {
  os_Args : list string;
  kubeconfig : Store;
  calls : list Call
}.

(** A computation that reads and changes the world and may fail; the
    world survives a failure. *)
Definition M (A : Type) : Type := World -> result A * World.

Definition ret {A} (a : A) : M A := fun w => (Ok a, w).

Definition fail {A} (e : error) : M A := fun w => (Err e, w).

Definition bind {A B} (m : M A) (k : A -> M B) : M B :=
  fun w =>
    match m w with
    | (Ok a, w') => k a w'
    | (Err e, w') => (Err e, w')
    end.

Definition lift {A} (r : result A) : M A := fun w => (r, w).

(** [if err != nil { return fmt.Errorf(msg + "%w", err) }] *)
Definition wrapped {A} (msg : string) (m : M A) : M A :=
  fun w =>
    match m w with
    | (Ok a, w') => (Ok a, w')
    | (Err e, w') => (Err (fmt.Errorf_w msg e), w')
    end.

Definition record (c : Call) (w : World) : World :=
  {| os_Args := os_Args w; kubeconfig := kubeconfig w; calls := calls w ++ [c] |}.

Definition get_os_Args : M (list string) := fun w => (Ok (os_Args w), w).

Definition call_Get (client : api.Client) (name : types.NamespacedName)
  : M infrastructure.KubernetesCluster :=
  fun w => (api.Get client name, record (Call_Get name) w).

Definition call_newAPIConfig (apiEndpoint issuerURL : url.URL)
    (command clientID : string) (opts : list apiConfigOption) : M Config :=
  fun w =>
    (newAPIConfig apiEndpoint issuerURL command clientID opts,
     record (Call_newAPIConfig apiEndpoint issuerURL command clientID opts) w).

Definition call_login (cfg : Config) (kubeconfigPath : string)
    (opts : list loginOption) : M unit :=
  fun w =>
    let w := record (Call_login cfg kubeconfigPath opts) w in
    match login cfg kubeconfigPath opts (kubeconfig w) with
    | (None, store) =>
        (Ok tt, {| os_Args := os_Args w; kubeconfig := store; calls := calls w |})
    | (Some err, store) =>
        (Err err, {| os_Args := os_Args w; kubeconfig := store; calls := calls w |})
    end.

Notation "x <- m ;; k" := (bind m (fun x => k))
  (at level 61, m at next level, right associativity).

Definition Run (a : ClusterCmd) (client : api.Client) : M unit :=
  name <- lift (clusterName (Name a) (api.Namespace client)) ;;
  cluster <- call_Get client name ;;
  let AtProvider := infrastructure.AtProvider (infrastructure.Status cluster) in
  apiEndpoint <- wrapped "invalid cluster API endpoint: "
                   (lift (url.Parse (infrastructure.APIEndpoint AtProvider))) ;;
  issuerURL <- wrapped "invalid cluster OIDC issuer url: "
                 (lift (url.Parse (infrastructure.OIDCIssuerURL AtProvider))) ;;
  caCert <- wrapped "unable to decode API CA certificate: "
              (lift (base64.DecodeString (infrastructure.APICACert AtProvider))) ;;
  args <- get_os_Args ;;
  command <- match args with
             | [] => fail (fmt.Errorf "could not get command name from os.Args")
             | arg0 :: _ => ret arg0
             end ;;
  cfg <- wrapped "unable to create kubeconfig: "
           (call_newAPIConfig apiEndpoint issuerURL command
              (infrastructure.OIDCClientID AtProvider)
              [overrideName (ContextName cluster); setCACert caCert]) ;;
  wrapped (fmt.Sprintf "error logging in to cluster %s: "
             [types.NamespacedName_String name])
    (call_login cfg (api.KubeconfigPath client)
       [runExecPlugin (ExecPlugin a); switchCurrentContext]).

End Run.

Arguments Call_Get {Config} name.
Arguments Call_newAPIConfig {Config} apiEndpoint issuerURL command clientID opts.
Arguments Call_login {Config} cfg kubeconfigPath opts.
Arguments os_Args {Config Store} w.
Arguments kubeconfig {Config Store} w.
Arguments calls {Config Store} w.
Arguments record {Config Store} c w.
Arguments Run {Config Store} newAPIConfig login a client.

(** The messages that [Run] puts in front of a cause; in the spec's
    taxonomy the first two are [IncompleteStatus], the third is
    [InvalidEncoding] and [no_command] is [SelfResolutionFailed]. *)
Definition endpoint_msg : string := "invalid cluster API endpoint: ".
Definition issuer_msg : string := "invalid cluster OIDC issuer url: ".
Definition cacert_msg : string := "unable to decode API CA certificate: ".
Definition no_command : error :=
  errorString "could not get command name from os.Args".

(** The error of [clusterName]: the spec's [InvalidIdentifier] *)
Definition namespace_empty : error := errorString "namespace cannot be empty".

End auth.

(** The separator of [clusterName] *)
Definition slash : ascii := "/".

(** ** Concrete inputs

    Stand-ins for [newAPIConfig] and [login] that always succeed; the
    store of [stub_login] lists the paths written. *)
Definition stub_newAPIConfig (apiEndpoint issuerURL : url.URL)
    (command clientID : string) (opts : list auth.apiConfigOption) : result unit :=
  Ok tt.

Definition stub_login (cfg : unit) (kubeconfigPath : string)
    (opts : list auth.loginOption) (store : list string)
  : option error * list string :=
  (None, kubeconfigPath :: store).

Definition cluster_with (endpoint issuer cacert : string)
  : infrastructure.KubernetesCluster :=
  {| infrastructure.Name := "prod";
     infrastructure.Namespace := "team-a";
     infrastructure.Status :=
       {| infrastructure.AtProvider :=
            {| infrastructure.APIEndpoint := endpoint;
               infrastructure.OIDCIssuerURL := issuer;
               infrastructure.OIDCClientID := "nctl";
               infrastructure.APICACert := cacert |} |} |}.

(** A client whose every lookup returns [r] *)
Definition client_returning (r : result infrastructure.KubernetesCluster)
    (namespace : string) : api.Client :=
  {| api.Get := fun _ => r;
     api.KubeconfigPath := "/home/op/.kube/config";
     api.Namespace := namespace |}.

Definition world_with (args : list string) : auth.World unit (list string) :=
  {| auth.os_Args := args; auth.kubeconfig := []; auth.calls := [] |}.

Definition prod_cmd (name : string) : auth.ClusterCmd :=
  {| auth.Name := name; auth.ExecPlugin := false |}.

Definition not_found : result infrastructure.KubernetesCluster :=
  Err (StatusError "NotFound").

(** A cluster whose endpoint is the empty string and whose other fields
    are well formed *)
Definition empty_endpoint : infrastructure.KubernetesCluster :=
  cluster_with "" "https://auth.example.org" "Y2VydA==".

(** A cluster whose endpoint [url.Parse] rejects and whose CA
    certificate is not base64 *)
Definition bad_endpoint_bad_cacert : infrastructure.KubernetesCluster :=
  cluster_with ":" "https://auth.example.org" "!".

Definition bad_cacert : infrastructure.KubernetesCluster :=
  cluster_with "https://api.example.org:6443" "https://auth.example.org" "!".

Definition well_formed : infrastructure.KubernetesCluster :=
  cluster_with "https://api.example.org:6443" "https://auth.example.org" "Y2VydA==".

(** [filepath.Join] on elements that need no cleaning *)
Definition join_clean (elem : list string) : string := String.concat "/" elem.

Definition os_with (env : list (string * string)) (home : result string) : api.OS :=
  {| api.environ := fun key =>
       match find (fun kv => String.eqb (fst kv) key) env with
       | Some kv => Some (snd kv)
       | None => None
       end;
     api.user_Current := home |}.

(** ** The rest of [api/client.go] *)
Module api_client.

(** [Client.Name]: a name in the client's namespace *)
Definition Name (c : api.Client) (name : string) : types.NamespacedName :=
  {| types.Name := name; types.Namespace := api.Namespace c |}.

(** [runtimeclient.Object], as [ObjectName] reads it *)
Record Object : Type := {
  obj_GetName : string;
  obj_GetNamespace : string
}.

Definition ObjectName (obj : Object) : types.NamespacedName :=
  {| types.Name := obj_GetName obj; types.Namespace := obj_GetNamespace obj |}.

(** [corev1.Secret]: its [Data] map *)
Record Secret : Type := {
  Data : string -> option string
}.

(** [xpv1.SecretReference] *)
Record SecretReference : Type := {
  ref_Name : string;
  ref_Namespace : string
}.

(** [resource.Managed], as [GetConnectionSecret] reads it; [TypeName] is
    what the verb [%T] prints for the value. *)
Record Managed : Type := {
  TypeName : string;
  GetName : string;
  GetNamespace : string;
  GetWriteConnectionSecretToReference : option SecretReference
}.

(** What the commands send to the resource API *)
Inductive Request : Type :=
| Get_APIServiceAccount (key : types.NamespacedName)
| Get_Secret (key : types.NamespacedName)
| List_APIServiceAccounts (allNamespaces : bool).

(** What a command changes outside its arguments: the text on standard
    output and the requests sent, in order. *)
Record Session : Type := {
  stdout : string;
  requests : list Request
}.

Definition M (A : Type) : Type := Session -> result A * Session.

Definition ret {A} (a : A) : M A := fun s => (Ok a, s).

Definition fail {A} (e : error) : M A := fun s => (Err e, s).

Definition bind {A B} (m : M A) (k : A -> M B) : M B :=
  fun s =>
    match m s with
    | (Ok a, s') => k a s'
    | (Err e, s') => (Err e, s')
    end.

(** [if err != nil { return fmt.Errorf(msg + "%w", err) }] *)
Definition wrapped {A} (msg : string) (m : M A) : M A :=
  fun s =>
    match m s with
    | (Ok a, s') => (Ok a, s')
    | (Err e, s') => (Err (fmt.Errorf_w msg e), s')
    end.

Definition send (r : Request) (s : Session) : Session :=
  {| stdout := stdout s; requests := requests s ++ [r] |}.

(** [fmt.Printf] *)
Definition Printf (text : string) : M unit :=
  fun s => (Ok tt, {| stdout := stdout s ++ text; requests := requests s |}).

Section GetConnectionSecret.

(** [c.Get] at a [*corev1.Secret], as the resource API answers it *)
Variable Get_Secret_answer : types.NamespacedName -> result Secret.

Definition call_Get_Secret (key : types.NamespacedName) : M Secret :=
  fun s => (Get_Secret_answer key, send (Get_Secret key) s).

(** [%T] of [mg] is the operand [TypeName mg]. *)
Definition GetConnectionSecret (mg : Managed) : M Secret :=
  match GetWriteConnectionSecretToReference mg with
  | None =>
      fail (fmt.Errorf
              (fmt.Sprintf "%s %s/%s has no connection secret ref set"
                 [TypeName mg; GetName mg; GetNamespace mg]))
  | Some ref =>
      let nsName := {| types.Name := ref_Name ref;
                       types.Namespace := ref_Namespace ref |} in
      wrapped (fmt.Sprintf "unable to get referenced secret %v: "
                 [types.NamespacedName_String nsName])
        (call_Get_Secret nsName)
  end.

End GetConnectionSecret.

(** [clientcmd.ConfigOverrides]: the cluster server and the context *)
Record ConfigOverrides : Type := {
  Server : string;
  CurrentContext : string
}.

Section Config.

Variable filepath_Join : list string -> string.

(** [os.Stat(filename)] returns no error *)
Variable file_exists : string -> bool.

(** [*rest.Config], the runtime client, its scheme and REST mapper *)
Variables RestConfig WithWatch Scheme Mapper : Type.

(** [clientConfig.Namespace()] and [clientConfig.ClientConfig()] of the
    deferred loading client config that client-go builds from a loader
    and overrides *)
Variable clientConfig_Namespace :
  api.ClientConfigLoadingRules -> ConfigOverrides -> result string.
Variable clientConfig_ClientConfig :
  api.ClientConfigLoadingRules -> ConfigOverrides -> result RestConfig.

(** [runtime.NewScheme()], [apis.AddToScheme], [corev1.AddToScheme] *)
Variable runtime_NewScheme : Scheme.
Variable apis_AddToScheme : Scheme -> result Scheme.
Variable corev1_AddToScheme : Scheme -> result Scheme.

(** [apis.StaticRESTMapper(scheme)] with the [Secret] kind added *)
Variable StaticRESTMapper : Scheme -> Mapper.

(** [runtimeclient.NewWithWatch] *)
Variable NewWithWatch : option RestConfig -> Scheme -> Mapper -> result WithWatch.

(** [api.Client] with the fields that [New] fills *)
Record Client : Type := {
  client_WithWatch : option WithWatch;
  Config : option RestConfig;
  KubeconfigPath : string;
  Namespace : string
}.

(** [ClientConfigLoadingRules.GetDefaultFilename] of client-go, on rules
    without an explicit path (as [LoadingRules] builds them): the first
    file of the precedence that exists, else the first of the
    precedence. *)
Definition GetDefaultFilename (rules : api.ClientConfigLoadingRules) : string :=
  match find file_exists (api.Precedence rules) with
  | Some filename => filename
  | None =>
      match api.Precedence rules with
      | filename :: _ => filename
      | [] => ""
      end
  end.

Definition loadConfigWithContext (apiServerURL : string)
    (loader : api.ClientConfigLoadingRules) (context : string)
  : result (RestConfig * string) :=
  let overrides := {| Server := apiServerURL; CurrentContext := context |} in
  let? ns := clientConfig_Namespace loader overrides in
  let? cfg := clientConfig_ClientConfig loader overrides in
  Ok (cfg, ns).

(** [Client.loadConfig]: the error and the client as it is afterwards *)
Definition loadConfig (os : api.OS) (c : Client) (context : string)
  : option error * Client :=
  match api.LoadingRules filepath_Join os with
  | Err err => (Some err, c)
  | Ok loadingRules =>
      match loadConfigWithContext "" loadingRules context with
      | Err err => (Some err, c)
      | Ok (cfg, namespace) =>
          (None,
           {| client_WithWatch := client_WithWatch c;
              Config := Some cfg;
              KubeconfigPath := GetDefaultFilename loadingRules;
              Namespace := if String.eqb (Namespace c) "" then namespace
                           else Namespace c |})
      end
  end.

Definition NewScheme : result Scheme :=
  let scheme := runtime_NewScheme in
  let? scheme := apis_AddToScheme scheme in
  let? scheme := corev1_AddToScheme scheme in
  Ok scheme.

(** [api.New] *)
Definition New (os : api.OS) (apiClusterContext namespace : string) : result Client :=
  let client := {| client_WithWatch := None; Config := None;
                   KubeconfigPath := ""; Namespace := namespace |} in
  match loadConfig os client apiClusterContext with
  | (Some err, _) => Err err
  | (None, client) =>
      let? scheme := NewScheme in
      let mapper := StaticRESTMapper scheme in
      let? c := NewWithWatch (Config client) scheme mapper in
      Ok {| client_WithWatch := Some c;
            Config := Config client;
            KubeconfigPath := KubeconfigPath client;
            Namespace := Namespace client |}
  end.

End Config.

Arguments client_WithWatch {RestConfig WithWatch} c.
Arguments Config {RestConfig WithWatch} c.
Arguments KubeconfigPath {RestConfig WithWatch} c.
Arguments Namespace {RestConfig WithWatch} c.

End api_client.

(** ** Package [get] ([get/apiserviceaccount.go]) *)
Module get.

(** [iam.APIServiceAccount]: the fields the command reads; [Role] is
    [Spec.ForProvider.Role]. *)
Record APIServiceAccount : Type := {
  sa_Name : string;
  sa_Namespace : string;
  Role : string;
  WriteConnectionSecretToReference : option api_client.SecretReference
}.

(** The account as a [resource.Managed] *)
Definition Managed_of (sa : APIServiceAccount) : api_client.Managed :=
  {| api_client.TypeName := "*v1alpha1.APIServiceAccount";
     api_client.GetName := sa_Name sa;
     api_client.GetNamespace := sa_Namespace sa;
     api_client.GetWriteConnectionSecretToReference :=
       WriteConnectionSecretToReference sa |}.

Record apiServiceAccountsCmd : Type := {
  Name : string;
  PrintToken : bool;
  PrintKubeconfig : bool
}.

(** [get.Cmd]: the flags of the parent command *)
Record Cmd : Type := {
  Output : string;
  AllNamespaces : bool
}.

Definition tokenKey : string := "token".
Definition kubeconfigKey : string := "kubeconfig".

Definition tab : string := String (ascii_of_nat 9) "".
Definition newline : string := String (ascii_of_nat 10) "".

(** The format of a table row: three cells, each ended by a tab or the
    line end *)
Definition row_format : string := "%s" ++ tab ++ "%s" ++ tab ++ "%s" ++ newline.

Section Run.

(** The output format [full], the kind [iam.APIServiceAccountKind], what
    [printEmptyMessage] does and the helper [list] are declared
    elsewhere in the package. *)
Variable full : string.
Variable APIServiceAccountKind : string.
Variable printEmptyMessage_effect :
  string -> string -> api_client.Session -> api_client.Session.
Variable list_answer : api.Client -> bool -> result (list APIServiceAccount).

(** [client.Get] at an [*iam.APIServiceAccount] and at a [*corev1.Secret] *)
Variable Get_APIServiceAccount_answer :
  types.NamespacedName -> result APIServiceAccount.
Variable Get_Secret_answer : types.NamespacedName -> result api_client.Secret.

(** [tabwriter.NewWriter(os.Stdout, 0, 0, 3, ' ', 0)]: from the cells
    written, the text that reaches standard output and the error of
    [Flush] *)
Variable tabwriter_Flush : string -> string * option error.

Notation "x <- m ;; k" := (api_client.bind m (fun x => k))
  (at level 61, m at next level, right associativity).

Definition call_Get (key : types.NamespacedName) : api_client.M APIServiceAccount :=
  fun s => (Get_APIServiceAccount_answer key,
            api_client.send (api_client.Get_APIServiceAccount key) s).

Definition call_list (client : api.Client) (allNamespaces : bool)
  : api_client.M (list APIServiceAccount) :=
  fun s => (list_answer client allNamespaces,
            api_client.send (api_client.List_APIServiceAccounts allNamespaces) s).

Definition printEmptyMessage (kind namespace : string) : api_client.M unit :=
  fun s => (Ok tt, printEmptyMessage_effect kind namespace s).

(** The cells that [print] writes to the tabwriter *)
Definition cells (sas : list APIServiceAccount) (header : bool) : string :=
  (if header then fmt.Sprintf row_format ["NAME"; "NAMESPACE"; "ROLE"] else "")
  ++ String.concat ""
       (map (fun sa => fmt.Sprintf row_format [sa_Name sa; sa_Namespace sa; Role sa])
          sas).

Definition print (sas : list APIServiceAccount) (header : bool) : api_client.M unit :=
  fun s =>
    let '(text, err) := tabwriter_Flush (cells sas header) in
    (match err with
     | None => Ok tt
     | Some e => Err e
     end,
     {| api_client.stdout := api_client.stdout s ++ text;
        api_client.requests := api_client.requests s |}).

Definition printToken (client : api.Client) (sa : APIServiceAccount)
  : api_client.M unit :=
  secret <- api_client.wrapped "unable to get connection secret: "
              (api_client.GetConnectionSecret Get_Secret_answer (Managed_of sa)) ;;
  match api_client.Data secret tokenKey with
  | None =>
      api_client.fail
        (fmt.Errorf (fmt.Sprintf "secret of API Service Account %s has no token"
                       [sa_Name sa]))
  | Some token => api_client.Printf (fmt.Sprintf ("%s" ++ newline) [token])
  end.

Definition printKubeconfig (client : api.Client) (sa : APIServiceAccount)
  : api_client.M unit :=
  secret <- api_client.wrapped "unable to get connection secret: "
              (api_client.GetConnectionSecret Get_Secret_answer (Managed_of sa)) ;;
  match api_client.Data secret kubeconfigKey with
  | None =>
      api_client.fail
        (fmt.Errorf (fmt.Sprintf "secret of API Service Account %s has no kubeconfig"
                       [sa_Name sa]))
  | Some kc => api_client.Printf (fmt.Sprintf "%s" [kc])
  end.

Definition Run (asa : apiServiceAccountsCmd) (client : api.Client) (get : Cmd)
  : api_client.M unit :=
  let header := String.eqb (Output get) full in
  if negb (len (Name asa) =? 0) then
    sa <- api_client.wrapped
            (fmt.Sprintf "unable to get API Service Account %s: " [Name asa])
            (call_Get (api_client.Name client (Name asa))) ;;
    if PrintToken asa then printToken client sa
    else if PrintKubeconfig asa then printKubeconfig client sa
    else print [sa] header
  else if PrintToken asa || PrintKubeconfig asa then
    api_client.fail
      (fmt.Errorf "name is not set, token or kubeconfig can only be printed for a single API Service Account")
  else
    items <- call_list client (AllNamespaces get) ;;
    if Z.of_nat (List.length items) =? 0 then
      _ <- printEmptyMessage APIServiceAccountKind (api.Namespace client) ;;
      api_client.ret tt
    else print items header.

End Run.

End get.

(** ** Names for what [auth.Run] hands to its collaborators *)

(** [cluster.Status.AtProvider.OIDCClientID] *)
Definition status_oidcClientID (cluster : infrastructure.KubernetesCluster) : string :=
  infrastructure.OIDCClientID (infrastructure.AtProvider (infrastructure.Status cluster)).

(** The options of the call of [newAPIConfig]: the context name
    [name/namespace] of the cluster and the decoded CA certificate *)
Definition build_opts (cluster : infrastructure.KubernetesCluster) (caCert : string)
  : list auth.apiConfigOption :=
  [auth.overrideName
     (infrastructure.Name cluster ++ "/" ++ infrastructure.Namespace cluster);
   auth.setCACert caCert].

(** The options of the call of [login] *)
Definition login_opts (a : auth.ClusterCmd) : list auth.loginOption :=
  [auth.runExecPlugin (auth.ExecPlugin a); auth.switchCurrentContext].

(** The message in front of an error of [login] *)
Definition login_msg (nn : types.NamespacedName) : string :=
  "error logging in to cluster " ++ types.NamespacedName_String nn ++ ": ".

(** ** More concrete inputs *)

(** Collaborators of [auth.Run] that fail; this [login] has already
    written when it fails. *)
Definition failing_newAPIConfig (apiEndpoint issuerURL : url.URL)
    (command clientID : string) (opts : list auth.apiConfigOption) : result unit :=
  Err (errorString "no issuer").

Definition failing_login (cfg : unit) (kubeconfigPath : string)
    (opts : list auth.loginOption) (store : list string)
  : option error * list string :=
  (Some (errorString "exec plugin failed"), kubeconfigPath :: store).

Definition parsed_endpoint : url.URL :=
  {| url.Scheme := "https"; url.Opaque := ""; url.User := None;
     url.Host := "api.example.org:6443"; url.Path := ""; url.RawPath := "";
     url.OmitHost := false; url.ForceQuery := false; url.RawQuery := "";
     url.Fragment := ""; url.RawFragment := "" |}.

Definition parsed_issuer : url.URL :=
  {| url.Scheme := "https"; url.Opaque := ""; url.User := None;
     url.Host := "auth.example.org"; url.Path := ""; url.RawPath := "";
     url.OmitHost := false; url.ForceQuery := false; url.RawQuery := "";
     url.Fragment := ""; url.RawFragment := "" |}.

Definition prod_team_a : types.NamespacedName :=
  {| types.Name := "prod"; types.Namespace := "team-a" |}.

Definition bad_issuer : infrastructure.KubernetesCluster :=
  cluster_with "https://api.example.org:6443" ":" "Y2VydA==".

(** A client configuration that client-go loads without error *)
Definition stub_Namespace (rules : api.ClientConfigLoadingRules)
    (overrides : api_client.ConfigOverrides) : result string :=
  Ok "team-a".

Definition stub_ClientConfig (rules : api.ClientConfigLoadingRules)
    (overrides : api_client.ConfigOverrides) : result string :=
  Ok (api_client.CurrentContext overrides).

Definition stub_AddToScheme (kinds : string) (scheme : list string)
  : result (list string) :=
  Ok (scheme ++ [kinds])%list.

Definition stub_NewWithWatch (cfg : option string) (scheme : list string) (mapper : unit)
  : result unit :=
  Ok tt.

Definition stub_New (file_exists : string -> bool) (os : api.OS)
    (context namespace : string) : result (api_client.Client string unit) :=
  api_client.New join_clean file_exists string unit (list string) unit
    stub_Namespace stub_ClientConfig [] (stub_AddToScheme "apis")
    (stub_AddToScheme "corev1") (fun _ => tt) stub_NewWithWatch
    os context namespace.

(** An account with a connection secret, and one without *)
Definition ci_account (ref : option api_client.SecretReference) : get.APIServiceAccount :=
  {| get.sa_Name := "ci"; get.sa_Namespace := "team-a"; get.Role := "admin";
     get.WriteConnectionSecretToReference := ref |}.

Definition deploy_account : get.APIServiceAccount :=
  {| get.sa_Name := "deploy"; get.sa_Namespace := "team-b"; get.Role := "viewer";
     get.WriteConnectionSecretToReference := None |}.

Definition ci_secret_ref : api_client.SecretReference :=
  {| api_client.ref_Name := "ci-credentials"; api_client.ref_Namespace := "secrets" |}.

Definition secret_of (entries : list (string * string)) : api_client.Secret :=
  {| api_client.Data := fun key =>
       match find (fun kv => String.eqb (fst kv) key) entries with
       | Some kv => Some (snd kv)
       | None => None
       end |}.

Definition empty_session : api_client.Session :=
  {| api_client.stdout := ""; api_client.requests := [] |}.

(** A tabwriter that passes its cells through, and an empty message *)
Definition stub_Flush (cells : string) : string * option error := (cells, None).

Definition stub_emptyMessage (kind namespace : string) (s : api_client.Session)
  : api_client.Session :=
  {| api_client.stdout :=
       api_client.stdout s ++ "no " ++ kind ++ " found in " ++ namespace;
     api_client.requests := api_client.requests s |}.

Definition stub_get_Run (accounts : result get.APIServiceAccount)
    (secrets : result api_client.Secret) (listed : result (list get.APIServiceAccount))
  : get.apiServiceAccountsCmd -> api.Client -> get.Cmd -> api_client.M unit :=
  get.Run "full" "APIServiceAccount" stub_emptyMessage (fun _ _ => listed)
    (fun _ => accounts) (fun _ => secrets) stub_Flush.

Definition asa_cmd (name : string) (token kubeconfig : bool) : get.apiServiceAccountsCmd :=
  {| get.Name := name; get.PrintToken := token; get.PrintKubeconfig := kubeconfig |}.

Definition full_output : get.Cmd :=
  {| get.Output := "full"; get.AllNamespaces := false |}.

Definition team_a_client : api.Client := client_returning not_found "team-a".

Definition not_found_account : result get.APIServiceAccount :=
  Err (StatusError "NotFound").

Definition ci_key : types.NamespacedName :=
  {| types.Name := "ci"; types.Namespace := "team-a" |}.

Definition ci_secret_key : types.NamespacedName :=
  {| types.Name := "ci-credentials"; types.Namespace := "secrets" |}.

Definition ci_secret : api_client.Secret :=
  secret_of [("token", "s3cr3t"); ("kubeconfig", "apiVersion: v1")].

(** The line end byte, and an account whose fields hold none *)
Definition line_end : ascii := ascii_of_nat 10.

Definition one_line (sa : get.APIServiceAccount) : Prop :=
  strings.CountString (get.sa_Name sa) line_end = 0
  /\ strings.CountString (get.sa_Namespace sa) line_end = 0
  /\ strings.CountString (get.Role sa) line_end = 0.

(** * Properties *)

(** ** Slices and the search for a byte *)

Lemma take_all (n : nat) (s : string) :
  (String.length s <= n)%nat -> take n s = s.
Proof.
  revert n; induction s as [|c s IH]; intros [|n] H; simpl in *;
    try reflexivity; try lia.
  now rewrite IH by lia.
Qed.

Lemma slice_to_end (s : string) (lo : Z) :
  0 <= lo -> slice s lo (len s) = drop (Z.to_nat lo) s.
Proof.
  intros Hlo. unfold slice, len. apply take_all.
  assert (Hd : forall n t, (String.length (drop n t) <= String.length t - n)%nat).
  { induction n as [|n IHn]; intros [|c t]; simpl; try lia.
    specialize (IHn t); lia. }
  specialize (Hd (Z.to_nat lo) s). lia.
Qed.

Lemma CountString_nonneg (s : string) (c : ascii) : 0 <= strings.CountString s c.
Proof.
  induction s as [|b s IH]; cbn [strings.CountString]; [lia|].
  destruct (Ascii.eqb b c); lia.
Qed.

(** The search fails exactly on the strings that do not hold the byte. *)
Lemma IndexByte_absent (s : string) (c : ascii) :
  (strings.IndexByte s c <? 0) = true <-> strings.CountString s c = 0.
Proof.
  induction s as [|b s IH]; cbn [strings.IndexByte strings.CountString];
    [split; reflexivity|].
  pose proof (CountString_nonneg s c) as Hnn.
  destruct (Ascii.eqb b c).
  - split; [discriminate|intros H; exfalso; lia].
  - destruct (strings.IndexByte s c <? 0) eqn:E.
    + split; [intros _; now apply IH|reflexivity].
    + apply Z.ltb_ge in E. split.
      * intros H. apply Z.ltb_lt in H. lia.
      * intros H. apply IH in H. discriminate.
Qed.

(** Cutting after the first separator removes one separator. *)
Lemma CountString_after_first (s : string) (c : ascii) :
  0 <= strings.IndexByte s c ->
  strings.CountString (drop (Z.to_nat (strings.IndexByte s c + 1)) s) c
  = strings.CountString s c - 1.
Proof.
  induction s as [|b s IH]; cbn [strings.IndexByte strings.CountString]; [lia|].
  destruct (Ascii.eqb b c) eqn:Eb.
  - intros _. change (Z.to_nat (0 + 1)) with 1%nat. cbn [drop]. lia.
  - destruct (strings.IndexByte s c <? 0) eqn:E; [lia|].
    apply Z.ltb_ge in E. intros _.
    replace (Z.to_nat (strings.IndexByte s c + 1 + 1))
      with (S (Z.to_nat (strings.IndexByte s c + 1))) by lia.
    cbn [drop]. rewrite IH by assumption. lia.
Qed.

Lemma IndexByte_app (a b : string) (c : ascii) :
  strings.CountString a c = 0 ->
  strings.IndexByte (a ++ String c b) c = len a.
Proof.
  unfold len.
  induction a as [|x a IH];
    cbn [strings.IndexByte strings.CountString String.length append].
  - intros _. now rewrite Ascii.eqb_refl.
  - pose proof (CountString_nonneg a c).
    destruct (Ascii.eqb x c); [lia|]. intros H0.
    rewrite IH by lia.
    destruct (Z.of_nat (String.length a) <? 0) eqn:E; [apply Z.ltb_lt in E|]; lia.
Qed.

Lemma take_app (a b : string) : take (String.length a) (a ++ b) = a.
Proof. induction a as [|x a IH]; simpl; [now destruct b|now rewrite IH]. Qed.

Lemma drop_app (a b : string) (c : ascii) :
  drop (S (String.length a)) (a ++ String c b) = b.
Proof. induction a as [|x a IH]; simpl; [reflexivity|exact IH]. Qed.

Lemma CountString_app (a b : string) (c : ascii) :
  strings.CountString (a ++ b) c = strings.CountString a c + strings.CountString b c.
Proof.
  induction a as [|x a IH]; cbn [append strings.CountString]; [reflexivity|].
  rewrite IH; lia.
Qed.

Lemma length_app (a b : string) :
  String.length (a ++ b) = (String.length a + String.length b)%nat.
Proof. induction a as [|x a IH]; simpl; [reflexivity|now rewrite IH]. Qed.

(** ** [strings.Split] *)

(** [Split] returns one piece more than the input has separators. *)
Lemma genSplit_loop_length (k : nat) (s : string) (c : ascii) :
  Z.of_nat (List.length (strings.genSplit_loop k s c))
  = Z.min (Z.of_nat k) (strings.CountString s c) + 1.
Proof.
  revert s; induction k as [|k IH]; intros s.
  - pose proof (CountString_nonneg s c). simpl. lia.
  - cbn [strings.genSplit_loop].
    destruct (strings.IndexByte s c <? 0) eqn:E.
    + apply IndexByte_absent in E. rewrite E. simpl. lia.
    + apply Z.ltb_ge in E.
      cbn [List.length]. rewrite Nat2Z.inj_succ, IH.
      rewrite slice_to_end by lia.
      rewrite CountString_after_first by assumption. lia.
Qed.

Lemma Split_length (s : string) (c : ascii) :
  Z.of_nat (List.length (strings.Split s c)) = strings.CountString s c + 1.
Proof.
  unfold strings.Split, strings.genSplit.
  pose proof (CountString_nonneg s c) as Hnn.
  rewrite genSplit_loop_length.
  destruct (len s + 1 <? strings.CountString s c + 1) eqn:E.
  - apply Z.ltb_lt in E.
    assert (Hle : strings.CountString s c <= len s).
    { clear. unfold len. induction s as [|b s IH]; simpl String.length;
        simpl strings.CountString; [lia|].
      destruct (Ascii.eqb b c); lia. }
    lia.
  - lia.
Qed.

Lemma Split_no_sep (s : string) (c : ascii) :
  strings.CountString s c = 0 -> strings.Split s c = [s].
Proof.
  intros H. unfold strings.Split, strings.genSplit. rewrite H.
  assert (0 <= len s) by (unfold len; lia).
  destruct (len s + 1 <? 0 + 1) eqn:E; [apply Z.ltb_lt in E; lia|].
  reflexivity.
Qed.

Lemma Split_one_sep (a b : string) (c : ascii) :
  strings.CountString a c = 0 -> strings.CountString b c = 0 ->
  strings.Split (a ++ String c b) c = [a; b].
Proof.
  intros Ha Hb. unfold strings.Split, strings.genSplit.
  rewrite CountString_app, Ha. simpl strings.CountString.
  rewrite Ascii.eqb_refl, Hb.
  assert (Hlen : len (a ++ String c b) = len a + 1 + len b).
  { unfold len. rewrite length_app. simpl. lia. }
  assert (0 <= len a /\ 0 <= len b) as [Hla Hlb] by (unfold len; lia).
  destruct (len (a ++ String c b) + 1 <? 0 + (1 + 0) + 1) eqn:E;
    [apply Z.ltb_lt in E; lia|].
  replace (Z.to_nat (0 + (1 + 0) + 1 - 1)) with 1%nat by lia.
  cbn [strings.genSplit_loop].
  rewrite IndexByte_app by assumption.
  destruct (len a <? 0) eqn:E2; [apply Z.ltb_lt in E2; lia|].
  rewrite slice_to_end by lia.
  unfold slice, len.
  replace (Z.to_nat (Z.of_nat (String.length a) - 0)) with (String.length a) by lia.
  replace (Z.to_nat (Z.of_nat (String.length a) + 1)) with (S (String.length a)) by lia.
  simpl drop at 1. rewrite take_app, drop_app. reflexivity.
Qed.

(** ** The embedded library functions on known values *)

Example Parse_empty : url.Parse "" = Ok url.zero.
Proof. reflexivity. Qed.

Example Parse_missing_scheme :
  url.Parse ":" = Err (url_Error "parse" ":" (errorString "missing protocol scheme")).
Proof. reflexivity. Qed.

Example Parse_control_byte :
  is_Err (url.Parse (String (ascii_of_nat 127) "")) = true.
Proof. reflexivity. Qed.

Example Parse_bad_escape :
  url.Parse "/a%zz" = Err (url_Error "parse" "/a%zz" (EscapeError "%zz")).
Proof. reflexivity. Qed.

Example Parse_https :
  url.Parse "https://api.example.org:6443/v1?watch=1#top"
  = Ok {| url.Scheme := "https"; url.Opaque := ""; url.User := None;
          url.Host := "api.example.org:6443"; url.Path := "/v1";
          url.RawPath := ""; url.OmitHost := false; url.ForceQuery := false;
          url.RawQuery := "watch=1"; url.Fragment := "top";
          url.RawFragment := "" |}.
Proof. reflexivity. Qed.

Example DecodeString_padded : base64.DecodeString "Y2VydA==" = Ok "cert".
Proof. reflexivity. Qed.

Example DecodeString_unpadded :
  base64.DecodeString "Y2VydA" = Err (CorruptInputError 4).
Proof. reflexivity. Qed.

Example DecodeString_bad_byte : base64.DecodeString "!" = Err (CorruptInputError 0).
Proof. reflexivity. Qed.

Example Split_three : strings.Split "a/b/c" "/" = ["a"; "b"; "c"].
Proof. reflexivity. Qed.

Example Split_empty : strings.Split "" "/" = [""].
Proof. reflexivity. Qed.

(** ** [base64]: the decoding loop ends by itself *)

Lemma skip_newlines_length (s : string) (si : Z) :
  (String.length (fst (base64.skip_newlines s si)) <= String.length s)%nat.
Proof.
  revert si; induction s as [|c s IH]; intros si; simpl; [lia|].
  destruct (base64.newline c); simpl; [specialize (IH (si + 1)); lia|lia].
Qed.

Lemma decodeQuantum_loop_consumes (src : string) :
  forall (si total : Z) (j : nat) (dbuf : list Z),
    let rest := fst (fst (fst (base64.decodeQuantum_loop src si total j dbuf))) in
    (String.length rest <= String.length src)%nat
    /\ ((j < 4)%nat -> src <> "" -> (String.length rest < String.length src)%nat).
Proof.
  induction src as [|c src IH]; intros si total j dbuf.
  - destruct j as [|[|[|[|[|j]]]]]; simpl; (split; [lia|intros; congruence || lia]).
  - assert (Hskip := skip_newlines_length).
    destruct j as [|[|[|[|[|j]]]]];
      cbn [base64.decodeQuantum_loop];
      repeat match goal with
             | |- context [if ?b then _ else _] => destruct b
             | |- context [base64.decodeQuantum_loop src ?a ?b ?c ?d] =>
                 let H := fresh in
                 pose proof (IH a b c d) as H; cbv zeta in H;
                 destruct (base64.decodeQuantum_loop src a b c d) as [[[? ?] ?] ?]
             | |- context [base64.skip_newlines ?s ?i] =>
                 let H := fresh in
                 pose proof (Hskip s i) as H;
                 destruct (base64.skip_newlines s i) as [? ?]
             | |- context [match ?s with EmptyString => _ | String _ _ => _ end] =>
                 destruct s
             end;
      cbn [fst snd String.length] in *; split; intros; lia.
Qed.

(** The bound of [Decode_loop] is never what ends the loop: a round more
    changes nothing. *)
Lemma Decode_loop_rounds (rounds : nat) :
  forall (src : string) (si total : Z) (dst : string),
    (String.length src <= rounds)%nat ->
    base64.Decode_loop (S rounds) src si total dst
    = base64.Decode_loop rounds src si total dst.
Proof.
  induction rounds as [|rounds IH]; intros src si total dst Hlen.
  - destruct src; [reflexivity|simpl in Hlen; lia].
  - destruct src as [|c src]; [reflexivity|].
    remember (String c src) as s eqn:Es.
    assert (Hne : s <> "") by (subst s; discriminate).
    pose proof (decodeQuantum_loop_consumes s si total 0 []) as [_ Hlt].
    specialize (Hlt ltac:(lia) Hne).
    change (base64.Decode_loop (S (S rounds)) s si total dst)
      with (match s with
            | EmptyString => (dst, None)
            | _ => let '(rest, si', out, err) := base64.decodeQuantum s si total in
                   match err with
                   | Some e => (dst ++ out, Some e)
                   | None => base64.Decode_loop (S rounds) rest si' total (dst ++ out)
                   end
            end).
    change (base64.Decode_loop (S rounds) s si total dst)
      with (match s with
            | EmptyString => (dst, None)
            | _ => let '(rest, si', out, err) := base64.decodeQuantum s si total in
                   match err with
                   | Some e => (dst ++ out, Some e)
                   | None => base64.Decode_loop rounds rest si' total (dst ++ out)
                   end
            end).
    unfold base64.decodeQuantum in *.
    destruct (base64.decodeQuantum_loop s si total 0 []) as [[[rest si'] out] err].
    cbn [fst] in Hlt. destruct s; [congruence|].
    destruct err; [reflexivity|]. apply IH. lia.
Qed.

(** ** The resolver [clusterName] *)

(** An input that does not hold exactly one ['/'] is not split. *)
Lemma clusterName_unsplit (name namespace : string) :
  strings.CountString name slash <> 1 ->
  auth.clusterName name namespace
  = if String.eqb namespace "" then Err auth.namespace_empty
    else Ok {| types.Name := name; types.Namespace := namespace |}.
Proof.
  intros H. unfold auth.clusterName.
  pose proof (Split_length name slash) as Hlen. fold slash.
  destruct (Z.of_nat (List.length (strings.Split name slash)) =? 2) eqn:E.
  - apply Z.eqb_eq in E. lia.
  - reflexivity.
Qed.

(** An input [a/b] with no other ['/'] is split into [a] and [b],
    whatever the ambient namespace is. *)
Lemma clusterName_split (a b ambient : string) :
  strings.CountString a slash = 0 -> strings.CountString b slash = 0 ->
  auth.clusterName (a ++ String slash b) ambient
  = if String.eqb b "" then Err auth.namespace_empty
    else Ok {| types.Name := a; types.Namespace := b |}.
Proof.
  intros Ha Hb. unfold auth.clusterName. fold slash.
  rewrite Split_one_sep by assumption. reflexivity.
Qed.

Lemma eqb_empty_false (s : string) : s <> "" -> String.eqb s "" = false.
Proof. intros H. now apply String.eqb_neq. Qed.

(** C3: a token [name/ns] whose parts hold no ['/'] and whose namespace
    is not empty resolves to [{Name: name, Namespace: ns}], for every
    ambient namespace. *)
Theorem clusterName_roundtrip (name ns anyAmbient : string) :
  strings.CountString name slash = 0 ->
  strings.CountString ns slash = 0 ->
  ns <> "" ->
  auth.clusterName (name ++ "/" ++ ns) anyAmbient
  = Ok {| types.Name := name; types.Namespace := ns |}.
Proof.
  intros Hname Hns Hne.
  change (name ++ "/" ++ ns) with (name ++ String slash ns).
  rewrite clusterName_split by assumption.
  now rewrite eqb_empty_false.
Qed.

Lemma clusterName_roundtrip_witness :
  auth.clusterName ("prod" ++ "/" ++ "team-a") "default"
  = Ok {| types.Name := "prod"; types.Namespace := "team-a" |}.
Proof.
  apply (clusterName_roundtrip "prod" "team-a" "default");
    [reflexivity | reflexivity | discriminate].
Defined.

(** C4: an input without ['/'], resolved in an empty ambient namespace,
    fails with the error "namespace cannot be empty" and yields no
    identity. *)
Theorem clusterName_empty_namespace (name : string) :
  strings.CountString name slash = 0 ->
  auth.clusterName name "" = Err auth.namespace_empty.
Proof.
  intros H. rewrite clusterName_unsplit by lia. reflexivity.
Qed.

Lemma clusterName_empty_namespace_witness :
  auth.clusterName "prod" "" = Err (errorString "namespace cannot be empty").
Proof. apply (clusterName_empty_namespace "prod"). reflexivity. Defined.

(** C5: an input without ['/'], resolved in a non-empty ambient
    namespace, yields [{Name: name, Namespace: ambientNamespace}]. *)
Theorem clusterName_ambient (name ambientNamespace : string) :
  strings.CountString name slash = 0 ->
  ambientNamespace <> "" ->
  auth.clusterName name ambientNamespace
  = Ok {| types.Name := name; types.Namespace := ambientNamespace |}.
Proof.
  intros H Hne. rewrite clusterName_unsplit by lia.
  now rewrite eqb_empty_false.
Qed.

Lemma clusterName_ambient_witness :
  auth.clusterName "prod" "team-a"
  = Ok {| types.Name := "prod"; types.Namespace := "team-a" |}.
Proof.
  apply (clusterName_ambient "prod" "team-a"); [reflexivity | discriminate].
Defined.

(** C10, as stated: every non-empty [ns], also one that holds a ['/'].
    The input ["/a/b"] has two separators and is not split: the name is
    the whole input and the namespace the ambient one. *)
Lemma clusterName_leading_slash_counterexample :
  "a/b" <> "" /\
  auth.clusterName ("/" ++ "a/b") "default"
  = Ok {| types.Name := "/a/b"; types.Namespace := "default" |} /\
  auth.clusterName ("/" ++ "a/b") "default"
  <> Ok {| types.Name := ""; types.Namespace := "a/b" |} /\
  auth.clusterName ("/" ++ "a/b") "" = Err auth.namespace_empty.
Proof.
  repeat split; try reflexivity; discriminate.
Qed.

(** C10, amended: for every non-empty [ns] without ['/'], the input
    ["/" ++ ns] is accepted and resolves to the empty name in namespace
    [ns]; the name part is not checked. *)
Theorem clusterName_leading_slash (ns ambient : string) :
  ns <> "" ->
  strings.CountString ns slash = 0 ->
  auth.clusterName ("/" ++ ns) ambient
  = Ok {| types.Name := ""; types.Namespace := ns |}.
Proof.
  intros Hne Hns.
  change ("/" ++ ns) with ("" ++ String slash ns).
  rewrite clusterName_split by (assumption || reflexivity).
  now rewrite eqb_empty_false.
Qed.

Lemma clusterName_leading_slash_witness :
  auth.clusterName ("/" ++ "team-a") "default"
  = Ok {| types.Name := ""; types.Namespace := "team-a" |}.
Proof.
  apply (clusterName_leading_slash "team-a" "default");
    [discriminate | reflexivity].
Defined.

(** ** [ContextName] *)

Lemma append_empty_r (s : string) : s ++ "" = s.
Proof. induction s as [|c s IH]; simpl; [reflexivity|now rewrite IH]. Qed.

(** C6: the context name of a cluster is its name, a ['/'] and its
    namespace. *)
Theorem ContextName_format (cluster : infrastructure.KubernetesCluster) :
  auth.ContextName cluster
  = infrastructure.Name cluster ++ "/" ++ infrastructure.Namespace cluster.
Proof.
  unfold auth.ContextName, fmt.Sprintf.
  cbn [fmt.doPrintf Ascii.eqb Bool.eqb orb andb].
  now rewrite append_empty_r.
Qed.

(** ** [ClusterCmd.Run]: the steps in the order of the source *)

Section Run_properties.

Context {Config Store : Type}.
Variable newAPIConfig :
  url.URL -> url.URL -> string -> string -> list auth.apiConfigOption -> result Config.
Variable login :
  Config -> string -> list auth.loginOption -> Store -> option error * Store.

Variable a : auth.ClusterCmd.
Variable client : api.Client.
Variable w : auth.World Config Store.

Ltac run_steps :=
  unfold auth.Run, auth.bind, auth.lift, auth.wrapped, auth.call_Get,
    auth.get_os_Args, auth.fail, auth.ret, fmt.Errorf_w, fmt.Errorf.

(** Recording a call adds it to the trace and leaves the store alone. *)
Lemma record_keeps_store (c : auth.Call Config) :
  auth.kubeconfig (auth.record c w) = auth.kubeconfig w
  /\ auth.calls (auth.record c w) = (auth.calls w ++ [c])%list.
Proof. split; reflexivity. Qed.

Lemma Run_invalid_identifier (e : error) :
  auth.clusterName (auth.Name a) (api.Namespace client) = Err e ->
  auth.Run newAPIConfig login a client w = (Err e, w).
Proof. intros H. run_steps. now rewrite H. Qed.

Lemma Run_lookup_failed (nn : types.NamespacedName) (e : error) :
  auth.clusterName (auth.Name a) (api.Namespace client) = Ok nn ->
  api.Get client nn = Err e ->
  auth.Run newAPIConfig login a client w = (Err e, auth.record (auth.Call_Get nn) w).
Proof. intros H1 H2. run_steps. now rewrite H1, H2. Qed.

Section After_lookup.

Variable nn : types.NamespacedName.
Variable cluster : infrastructure.KubernetesCluster.
Hypothesis resolved :
  auth.clusterName (auth.Name a) (api.Namespace client) = Ok nn.
Hypothesis found : api.Get client nn = Ok cluster.

Lemma Run_endpoint_rejected (e : error) :
  url.Parse (infrastructure.status_apiEndpoint cluster) = Err e ->
  auth.Run newAPIConfig login a client w
  = (Err (wrapError auth.endpoint_msg e), auth.record (auth.Call_Get nn) w).
Proof.
  intros H. unfold infrastructure.status_apiEndpoint in H. run_steps. now rewrite resolved, found, H.
Qed.

Lemma Run_issuer_rejected (apiEndpoint : url.URL) (e : error) :
  url.Parse (infrastructure.status_apiEndpoint cluster) = Ok apiEndpoint ->
  url.Parse (infrastructure.status_oidcIssuerURL cluster) = Err e ->
  auth.Run newAPIConfig login a client w
  = (Err (wrapError auth.issuer_msg e), auth.record (auth.Call_Get nn) w).
Proof.
  intros H1 H2. unfold infrastructure.status_apiEndpoint, infrastructure.status_oidcIssuerURL in *. run_steps.
  rewrite resolved, found, H1. cbv beta iota. now rewrite H2.
Qed.

Lemma Run_cacert_rejected (apiEndpoint issuerURL : url.URL) (e : error) :
  url.Parse (infrastructure.status_apiEndpoint cluster) = Ok apiEndpoint ->
  url.Parse (infrastructure.status_oidcIssuerURL cluster) = Ok issuerURL ->
  base64.DecodeString (infrastructure.status_apiCACert cluster) = Err e ->
  auth.Run newAPIConfig login a client w
  = (Err (wrapError auth.cacert_msg e), auth.record (auth.Call_Get nn) w).
Proof.
  intros H1 H2 H3. unfold infrastructure.status_apiEndpoint, infrastructure.status_oidcIssuerURL,
    infrastructure.status_apiCACert in *. run_steps.
  rewrite resolved, found, H1. cbv beta iota. rewrite H2. cbv beta iota.
  now rewrite H3.
Qed.

Lemma Run_no_command (apiEndpoint issuerURL : url.URL) (caCert : string) :
  url.Parse (infrastructure.status_apiEndpoint cluster) = Ok apiEndpoint ->
  url.Parse (infrastructure.status_oidcIssuerURL cluster) = Ok issuerURL ->
  base64.DecodeString (infrastructure.status_apiCACert cluster) = Ok caCert ->
  auth.os_Args w = [] ->
  auth.Run newAPIConfig login a client w = (Err auth.no_command, auth.record (auth.Call_Get nn) w).
Proof.
  intros H1 H2 H3 H4. unfold infrastructure.status_apiEndpoint, infrastructure.status_oidcIssuerURL,
    infrastructure.status_apiCACert in *. run_steps.
  rewrite resolved, found, H1. cbv beta iota. rewrite H2. cbv beta iota.
  rewrite H3. cbv beta iota.
  unfold auth.record. cbn [auth.os_Args]. now rewrite H4.
Qed.

(** Once the lookup has answered, a run that stops before
    [newAPIConfig] has made exactly one call, the lookup. *)
Lemma Run_stops_after_lookup :
  is_Err (url.Parse (infrastructure.status_apiEndpoint cluster)) = true
  \/ is_Err (url.Parse (infrastructure.status_oidcIssuerURL cluster)) = true
  \/ is_Err (base64.DecodeString (infrastructure.status_apiCACert cluster)) = true
  \/ auth.os_Args w = [] ->
  exists e, auth.Run newAPIConfig login a client w = (Err e, auth.record (auth.Call_Get nn) w).
Proof.
  intros H.
  destruct (url.Parse (infrastructure.status_apiEndpoint cluster)) as [u1|e1] eqn:E1;
    [|eexists; apply (Run_endpoint_rejected e1 E1)].
  destruct (url.Parse (infrastructure.status_oidcIssuerURL cluster)) as [u2|e2] eqn:E2;
    [|eexists; apply (Run_issuer_rejected u1 e2 E1 E2)].
  destruct (base64.DecodeString (infrastructure.status_apiCACert cluster)) as [ca|e3] eqn:E3;
    [|eexists; apply (Run_cacert_rejected u1 u2 e3 E1 E2 E3)].
  destruct H as [H|[H|[H|H]]]; try discriminate.
  eexists. apply (Run_no_command u1 u2 ca E1 E2 E3 H).
Qed.

(** The run ends with the endpoint error exactly when [url.Parse]
    rejects the endpoint. *)
Lemma Run_endpoint_error_iff (e : error) :
  fst (auth.Run newAPIConfig login a client w) = Err (wrapError auth.endpoint_msg e)
  <-> url.Parse (infrastructure.status_apiEndpoint cluster) = Err e.
Proof.
  split.
  - destruct (url.Parse (infrastructure.status_apiEndpoint cluster)) as [u1|e1] eqn:E1.
    2:{ rewrite (Run_endpoint_rejected e1 E1). cbn [fst]. congruence. }
    destruct (url.Parse (infrastructure.status_oidcIssuerURL cluster)) as [u2|e2] eqn:E2.
    2:{ rewrite (Run_issuer_rejected u1 e2 E1 E2). discriminate. }
    destruct (base64.DecodeString (infrastructure.status_apiCACert cluster)) as [ca|e3] eqn:E3.
    2:{ rewrite (Run_cacert_rejected u1 u2 e3 E1 E2 E3). discriminate. }
    unfold infrastructure.status_apiEndpoint, infrastructure.status_oidcIssuerURL,
    infrastructure.status_apiCACert in *. run_steps.
    rewrite resolved, found, E1. cbv beta iota. rewrite E2. cbv beta iota.
    rewrite E3. cbv beta iota.
    destruct (auth.os_Args (auth.record (auth.Call_Get nn) w)); [discriminate|].
    unfold auth.call_newAPIConfig.
    destruct (newAPIConfig _ _ _ _ _); [|discriminate].
    unfold auth.call_login.
    destruct (login _ _ _ _) as [[err|] store]; discriminate.
  - intros H. now rewrite (Run_endpoint_rejected e H).
Qed.

End After_lookup.

(** A run whose identifier resolves looks the cluster up, first of all. *)
Lemma Run_looks_up (nn : types.NamespacedName) :
  auth.clusterName (auth.Name a) (api.Namespace client) = Ok nn ->
  exists rest,
    auth.calls (snd (auth.Run newAPIConfig login a client w))
    = (auth.calls w ++ auth.Call_Get nn :: rest)%list.
Proof.
  intros resolved.
  destruct (api.Get client nn) as [cluster|e] eqn:found.
  2:{ exists []. now rewrite (Run_lookup_failed nn e resolved found). }
  destruct (url.Parse (infrastructure.status_apiEndpoint cluster)) as [u1|e1] eqn:E1.
  2:{ exists []. now rewrite (Run_endpoint_rejected nn cluster resolved found e1 E1). }
  destruct (url.Parse (infrastructure.status_oidcIssuerURL cluster)) as [u2|e2] eqn:E2.
  2:{ exists []. now rewrite (Run_issuer_rejected nn cluster resolved found u1 e2 E1 E2). }
  destruct (base64.DecodeString (infrastructure.status_apiCACert cluster)) as [ca|e3] eqn:E3.
  2:{ exists [].
      now rewrite (Run_cacert_rejected nn cluster resolved found u1 u2 e3 E1 E2 E3). }
  unfold infrastructure.status_apiEndpoint, infrastructure.status_oidcIssuerURL,
    infrastructure.status_apiCACert in *. run_steps.
  rewrite resolved, found, E1. cbv beta iota. rewrite E2. cbv beta iota.
  rewrite E3. cbv beta iota.
  destruct (auth.os_Args (auth.record (auth.Call_Get nn) w)); [now exists []|].
  unfold auth.call_newAPIConfig.
  destruct (newAPIConfig _ _ _ _ _) as [cfg|e4].
  2:{ eexists. cbn [snd auth.record auth.calls]. rewrite <- app_assoc. reflexivity. }
  unfold auth.call_login.
  destruct (login _ _ _ _) as [[err|] store];
    eexists; cbn [snd auth.record auth.calls];
    rewrite <- !app_assoc; reflexivity.
Qed.

(** C1, amended: an input with more than one ['/'] is not split.  In an
    empty ambient namespace the run fails with "namespace cannot be
    empty" and the world is as before: no lookup was attempted.  In a
    non-empty ambient namespace the resolver succeeds with the whole
    input as the name, and the run looks that identity up. *)
Theorem Run_many_slashes :
  1 < strings.CountString (auth.Name a) slash ->
  (api.Namespace client = "" ->
   auth.clusterName (auth.Name a) (api.Namespace client) = Err auth.namespace_empty
   /\ auth.Run newAPIConfig login a client w = (Err auth.namespace_empty, w))
  /\
  (api.Namespace client <> "" ->
   let nn := {| types.Name := auth.Name a;
                types.Namespace := api.Namespace client |} in
   auth.clusterName (auth.Name a) (api.Namespace client) = Ok nn
   /\ exists rest,
        auth.calls (snd (auth.Run newAPIConfig login a client w))
        = (auth.calls w ++ auth.Call_Get nn :: rest)%list).
Proof.
  intros Hmany.
  pose proof (clusterName_unsplit (auth.Name a) (api.Namespace client)) as Hun.
  specialize (Hun ltac:(lia)).
  split.
  - intros Hempty. rewrite Hempty in *. cbn [String.eqb] in Hun.
    split; [exact Hun|]. apply Run_invalid_identifier. now rewrite Hempty.
  - intros Hne nn. rewrite (eqb_empty_false _ Hne) in Hun.
    split; [exact Hun|]. now apply Run_looks_up.
Qed.

(** C2, amended: [url.Parse] accepts the empty string, so an empty
    [status.apiEndpoint] never makes the run fail with the endpoint
    error.  The run fails with that error when [url.Parse] rejects the
    endpoint, and then it has made the lookup and nothing else: no
    kubeconfig is built or written. *)
Theorem Run_endpoint_status
    (nn : types.NamespacedName) (cluster : infrastructure.KubernetesCluster) :
  auth.clusterName (auth.Name a) (api.Namespace client) = Ok nn ->
  api.Get client nn = Ok cluster ->
  url.Parse "" = Ok url.zero
  /\ (infrastructure.status_apiEndpoint cluster = "" ->
      forall e, fst (auth.Run newAPIConfig login a client w)
                <> Err (wrapError auth.endpoint_msg e))
  /\ (forall e, url.Parse (infrastructure.status_apiEndpoint cluster) = Err e ->
      auth.Run newAPIConfig login a client w
      = (Err (wrapError auth.endpoint_msg e), auth.record (auth.Call_Get nn) w)).
Proof.
  intros resolved found. split; [reflexivity|]. split.
  - intros Hempty e Hrun.
    apply (Run_endpoint_error_iff nn cluster resolved found) in Hrun.
    rewrite Hempty in Hrun. discriminate.
  - intros e H. exact (Run_endpoint_rejected nn cluster resolved found e H).
Qed.

(** C7, amended: when [status.apiCACert] is not valid base64 the run
    fails having made the lookup and nothing else ([newAPIConfig] and
    [login] are not called).  The endpoint and the issuer URL are
    checked first, in this order: the error is the endpoint error when
    [url.Parse] rejects the endpoint, the issuer error when it accepts
    the endpoint and rejects the issuer URL, and the decoding error
    when it accepts both. *)
Theorem Run_cacert_invalid
    (nn : types.NamespacedName) (cluster : infrastructure.KubernetesCluster)
    (e : error) :
  auth.clusterName (auth.Name a) (api.Namespace client) = Ok nn ->
  api.Get client nn = Ok cluster ->
  base64.DecodeString (infrastructure.status_apiCACert cluster) = Err e ->
  auth.Run newAPIConfig login a client w
  = (Err match url.Parse (infrastructure.status_apiEndpoint cluster),
               url.Parse (infrastructure.status_oidcIssuerURL cluster) with
         | Err e1, _ => wrapError auth.endpoint_msg e1
         | Ok _, Err e2 => wrapError auth.issuer_msg e2
         | Ok _, Ok _ => wrapError auth.cacert_msg e
         end,
     auth.record (auth.Call_Get nn) w)
  /\ (is_Err (url.Parse (infrastructure.status_apiEndpoint cluster)) = false ->
      is_Err (url.Parse (infrastructure.status_oidcIssuerURL cluster)) = false ->
      auth.Run newAPIConfig login a client w
      = (Err (wrapError auth.cacert_msg e), auth.record (auth.Call_Get nn) w)).
Proof.
  intros resolved found Hca.
  destruct (url.Parse (infrastructure.status_apiEndpoint cluster)) as [u1|e1] eqn:E1.
  2:{ split; [|discriminate].
      exact (Run_endpoint_rejected nn cluster resolved found e1 E1). }
  destruct (url.Parse (infrastructure.status_oidcIssuerURL cluster)) as [u2|e2] eqn:E2.
  2:{ split; [|discriminate].
      exact (Run_issuer_rejected nn cluster resolved found u1 e2 E1 E2). }
  split; [|intros _ _];
    exact (Run_cacert_rejected nn cluster resolved found u1 u2 e E1 E2 Hca).
Qed.

(** C9, amended: with an empty [os.Args] the run fails, the kubeconfig
    store is as before, and the only call it can have made is one
    lookup (no retry, no [newAPIConfig], no [login]).  The error is
    that of the first step that fails, in the order of the source: the
    resolver's error; the lookup's error, unwrapped; the endpoint
    error; the issuer error; the decoding error; and "could not get
    command name from os.Args" when all of these steps succeed. *)
Theorem Run_no_os_Args :
  auth.os_Args w = [] ->
  auth.Run newAPIConfig login a client w
  = match auth.clusterName (auth.Name a) (api.Namespace client) with
    | Err e => (Err e, w)
    | Ok nn =>
        (Err match api.Get client nn with
             | Err e => e
             | Ok cluster =>
                 match url.Parse (infrastructure.status_apiEndpoint cluster),
                       url.Parse (infrastructure.status_oidcIssuerURL cluster),
                       base64.DecodeString (infrastructure.status_apiCACert cluster)
                 with
                 | Err e1, _, _ => wrapError auth.endpoint_msg e1
                 | Ok _, Err e2, _ => wrapError auth.issuer_msg e2
                 | Ok _, Ok _, Err e3 => wrapError auth.cacert_msg e3
                 | Ok _, Ok _, Ok _ => auth.no_command
                 end
             end,
         auth.record (auth.Call_Get nn) w)
    end
  /\ (exists e w',
       auth.Run newAPIConfig login a client w = (Err e, w')
       /\ auth.kubeconfig w' = auth.kubeconfig w
       /\ (w' = w \/ exists nn, w' = auth.record (auth.Call_Get nn) w))
  /\ (forall nn cluster,
      auth.clusterName (auth.Name a) (api.Namespace client) = Ok nn ->
      api.Get client nn = Ok cluster ->
      is_Err (url.Parse (infrastructure.status_apiEndpoint cluster)) = false ->
      is_Err (url.Parse (infrastructure.status_oidcIssuerURL cluster)) = false ->
      is_Err (base64.DecodeString (infrastructure.status_apiCACert cluster)) = false ->
      auth.Run newAPIConfig login a client w
      = (Err auth.no_command, auth.record (auth.Call_Get nn) w)).
Proof.
  intros Hargs. split; [|split].
  - destruct (auth.clusterName (auth.Name a) (api.Namespace client))
      as [nn|e] eqn:resolved.
    2:{ exact (Run_invalid_identifier e resolved). }
    destruct (api.Get client nn) as [cluster|e] eqn:found.
    2:{ exact (Run_lookup_failed nn e resolved found). }
    destruct (url.Parse (infrastructure.status_apiEndpoint cluster)) as [u1|e1] eqn:E1.
    2:{ exact (Run_endpoint_rejected nn cluster resolved found e1 E1). }
    destruct (url.Parse (infrastructure.status_oidcIssuerURL cluster)) as [u2|e2] eqn:E2.
    2:{ exact (Run_issuer_rejected nn cluster resolved found u1 e2 E1 E2). }
    destruct (base64.DecodeString (infrastructure.status_apiCACert cluster))
      as [ca|e3] eqn:E3.
    2:{ exact (Run_cacert_rejected nn cluster resolved found u1 u2 e3 E1 E2 E3). }
    exact (Run_no_command nn cluster resolved found u1 u2 ca E1 E2 E3 Hargs).
  - destruct (auth.clusterName (auth.Name a) (api.Namespace client))
      as [nn|e] eqn:resolved.
    2:{ exists e, w. rewrite (Run_invalid_identifier e resolved). auto. }
    destruct (api.Get client nn) as [cluster|e] eqn:found.
    2:{ exists e, (auth.record (auth.Call_Get nn) w).
        rewrite (Run_lookup_failed nn e resolved found). eauto. }
    destruct (Run_stops_after_lookup nn cluster resolved found) as [e He];
      [now do 3 right|].
    exists e, (auth.record (auth.Call_Get nn) w). rewrite He. eauto.
  - intros nn cluster resolved found H1 H2 H3.
    destruct (url.Parse (infrastructure.status_apiEndpoint cluster)) as [u1|] eqn:E1;
      [|discriminate].
    destruct (url.Parse (infrastructure.status_oidcIssuerURL cluster)) as [u2|] eqn:E2;
      [|discriminate].
    destruct (base64.DecodeString (infrastructure.status_apiCACert cluster))
      as [ca|] eqn:E3; [|discriminate].
    exact (Run_no_command nn cluster resolved found u1 u2 ca E1 E2 E3 Hargs).
Qed.

End Run_properties.

(** ** Runs on concrete inputs *)

(** C1, as stated, fails on the spec's own scenario: ["a/b/c"] in the
    ambient namespace ["default"] resolves, and the run goes on to look
    the identity up. *)
Lemma Run_many_slashes_counterexample :
  1 < strings.CountString "a/b/c" slash
  /\ auth.clusterName "a/b/c" "default"
     = Ok {| types.Name := "a/b/c"; types.Namespace := "default" |}
  /\ auth.Run stub_newAPIConfig stub_login (prod_cmd "a/b/c")
       (client_returning not_found "default") (world_with ["nctl"])
     = (Err (StatusError "NotFound"),
        {| auth.os_Args := ["nctl"];
           auth.kubeconfig := [];
           auth.calls :=
             [auth.Call_Get {| types.Name := "a/b/c";
                               types.Namespace := "default" |}] |}).
Proof. repeat split. Qed.

Lemma Run_many_slashes_witness :
  1 < strings.CountString "a/b/c" slash
  /\ auth.Run stub_newAPIConfig stub_login (prod_cmd "a/b/c")
       (client_returning not_found "") (world_with ["nctl"])
     = (Err auth.namespace_empty, world_with ["nctl"]).
Proof.
  split; [reflexivity|].
  apply (Run_many_slashes stub_newAPIConfig stub_login (prod_cmd "a/b/c")
           (client_returning not_found "") (world_with ["nctl"]));
    reflexivity.
Defined.

(** C2, as stated, fails: with an empty [status.apiEndpoint] the run
    does not fail, and [login] is called and writes the kubeconfig. *)
Lemma Run_empty_endpoint_counterexample :
  infrastructure.status_apiEndpoint empty_endpoint = ""
  /\ url.Parse "" = Ok url.zero
  /\ fst (auth.Run stub_newAPIConfig stub_login (prod_cmd "prod")
            (client_returning (Ok empty_endpoint) "team-a") (world_with ["nctl"]))
     = Ok tt
  /\ auth.kubeconfig
       (snd (auth.Run stub_newAPIConfig stub_login (prod_cmd "prod")
               (client_returning (Ok empty_endpoint) "team-a") (world_with ["nctl"])))
     = ["/home/op/.kube/config"]
  /\ exists nn u1 u2 opts,
       auth.calls
         (snd (auth.Run stub_newAPIConfig stub_login (prod_cmd "prod")
                 (client_returning (Ok empty_endpoint) "team-a") (world_with ["nctl"])))
       = [auth.Call_Get nn;
          auth.Call_newAPIConfig u1 u2 "nctl" "nctl"
            [auth.overrideName "prod/team-a"; auth.setCACert "cert"];
          auth.Call_login tt "/home/op/.kube/config" opts].
Proof.
  split; [reflexivity|]. split; [reflexivity|]. split; [reflexivity|].
  split; [reflexivity|]. do 4 eexists. reflexivity.
Qed.

Lemma Run_endpoint_status_witness :
  auth.clusterName "prod" "team-a"
  = Ok {| types.Name := "prod"; types.Namespace := "team-a" |}
  /\ infrastructure.status_apiEndpoint empty_endpoint = ""
  /\ forall e,
       fst (auth.Run stub_newAPIConfig stub_login (prod_cmd "prod")
              (client_returning (Ok empty_endpoint) "team-a") (world_with ["nctl"]))
       <> Err (wrapError auth.endpoint_msg e).
Proof.
  split; [reflexivity|]. split; [reflexivity|].
  apply (Run_endpoint_status stub_newAPIConfig stub_login (prod_cmd "prod")
           (client_returning (Ok empty_endpoint) "team-a") (world_with ["nctl"])
           {| types.Name := "prod"; types.Namespace := "team-a" |} empty_endpoint);
    reflexivity.
Defined.

(** C7, as stated, fails: the endpoint is checked before the CA
    certificate, so this run ends with the endpoint error and not with
    the decoding error. *)
Lemma Run_cacert_invalid_counterexample :
  base64.DecodeString (infrastructure.status_apiCACert bad_endpoint_bad_cacert)
  = Err (CorruptInputError 0)
  /\ auth.Run stub_newAPIConfig stub_login (prod_cmd "prod")
       (client_returning (Ok bad_endpoint_bad_cacert) "team-a") (world_with ["nctl"])
     = (Err (wrapError "invalid cluster API endpoint: "
               (url_Error "parse" ":" (errorString "missing protocol scheme"))),
        auth.record (auth.Call_Get {| types.Name := "prod"; types.Namespace := "team-a" |})
          (world_with ["nctl"])).
Proof. split; reflexivity. Qed.

Lemma Run_cacert_invalid_witness :
  base64.DecodeString "!" = Err (CorruptInputError 0)
  /\ auth.Run stub_newAPIConfig stub_login (prod_cmd "prod")
       (client_returning (Ok bad_cacert) "team-a") (world_with ["nctl"])
     = (Err (wrapError auth.cacert_msg (CorruptInputError 0)),
        auth.record (auth.Call_Get {| types.Name := "prod"; types.Namespace := "team-a" |})
          (world_with ["nctl"])).
Proof.
  split; [reflexivity|].
  apply (Run_cacert_invalid stub_newAPIConfig stub_login (prod_cmd "prod")
           (client_returning (Ok bad_cacert) "team-a") (world_with ["nctl"])
           {| types.Name := "prod"; types.Namespace := "team-a" |} bad_cacert
           (CorruptInputError 0));
    reflexivity.
Defined.

(** C9, as stated, fails: with an empty [os.Args] and an empty ambient
    namespace the run ends with the resolver's error. *)
Lemma Run_no_os_Args_counterexample :
  auth.os_Args (world_with []) = []
  /\ auth.Run stub_newAPIConfig stub_login (prod_cmd "prod")
       (client_returning (Ok empty_endpoint) "") (world_with [])
     = (Err (errorString "namespace cannot be empty"), world_with [])
  /\ errorString "namespace cannot be empty" <> auth.no_command.
Proof. repeat split. discriminate. Qed.

Lemma Run_no_os_Args_witness :
  auth.os_Args (world_with []) = []
  /\ auth.Run stub_newAPIConfig stub_login (prod_cmd "prod")
       (client_returning (Ok well_formed) "team-a") (world_with [])
     = (Err auth.no_command,
        auth.record (auth.Call_Get {| types.Name := "prod"; types.Namespace := "team-a" |})
          (world_with [])).
Proof.
  split; [reflexivity|].
  exact (proj1 (Run_no_os_Args stub_newAPIConfig stub_login (prod_cmd "prod")
                  (client_returning (Ok well_formed) "team-a") (world_with []) eq_refl)).
Defined.

(** ** [LoadingRules]: where the kubeconfig is looked for *)

Lemma len_zero (s : string) : (len s =? 0) = String.eqb s "".
Proof. destruct s; reflexivity. Qed.

Section LoadingRules_properties.

Variable filepath_Join : list string -> string.

(** C8: the precedence list starts with the files that [KUBECONFIG]
    names (one file when it names one path) or, when [KUBECONFIG] is not
    set, with the per-user default [RecommendedHomeFile]; the path built
    from the looked-up user's home directory is added behind them
    exactly when [HOME] is not set; and [LoadingRules] fails exactly
    when [HOME] is not set and the user lookup fails. *)
Theorem LoadingRules_precedence (os : api.OS) :
  let kubeconfig := api.Getenv os "KUBECONFIG" in
  let base :=
    if String.eqb kubeconfig "" then [api.RecommendedHomeFile filepath_Join os]
    else api.deduplicate (api.SplitList kubeconfig) in
  (kubeconfig <> "" -> strings.CountString kubeconfig ":" = 0 -> base = [kubeconfig])
  /\ (is_Err (api.LoadingRules filepath_Join os) = true
      <-> api.LookupEnv os "HOME" = None /\ is_Err (api.user_Current os) = true)
  /\ (forall rules, api.LoadingRules filepath_Join os = Ok rules ->
      match api.LookupEnv os "HOME" with
      | Some _ => api.Precedence rules = base
      | None =>
          exists home,
            api.user_Current os = Ok home
            /\ api.Precedence rules
               = (base ++ [filepath_Join [home; ".kube"; "config"]])%list
      end).
Proof.
  intros kubeconfig base.
  assert (Hdefault :
    api.Precedence (api.NewDefaultClientConfigLoadingRules filepath_Join os) = base).
  { unfold api.NewDefaultClientConfigLoadingRules, api.RecommendedConfigPathEnvVar.
    fold kubeconfig. rewrite len_zero. subst base.
    destruct (String.eqb kubeconfig ""); reflexivity. }
  split; [|split].
  - intros Hne Hone. subst base. rewrite (eqb_empty_false _ Hne).
    unfold api.SplitList. rewrite (eqb_empty_false _ Hne).
    now rewrite Split_no_sep.
  - unfold api.LoadingRules.
    destruct (api.LookupEnv os "HOME") as [home|].
    + split; [discriminate|intros [H _]; discriminate].
    + destruct (api.user_Current os) as [home|e]; cbn [is_Err].
      * split; [discriminate|intros [_ H]; discriminate].
      * split; auto.
  - intros rules. unfold api.LoadingRules.
    destruct (api.LookupEnv os "HOME") as [home|].
    + intros H. injection H as <-. exact Hdefault.
    + destruct (api.user_Current os) as [home|e]; [|discriminate].
      intros H. injection H as <-. exists home. split; [reflexivity|].
      cbn [api.Precedence]. now rewrite Hdefault.
Qed.

End LoadingRules_properties.

Lemma LoadingRules_precedence_witness :
  (forall rules,
     api.LoadingRules join_clean (os_with [("KUBECONFIG", "/etc/nctl/config")]
                                    (Ok "/home/op")) = Ok rules ->
     api.Precedence rules = ["/etc/nctl/config"; "/home/op/.kube/config"])
  /\ (forall rules,
     api.LoadingRules join_clean (os_with [("HOME", "/home/op")] (Err (errorString "no user")))
     = Ok rules ->
     api.Precedence rules = ["/home/op/.kube/config"])
  /\ is_Err (api.LoadingRules join_clean (os_with [] (Err (errorString "no user")))) = true.
Proof.
  split; [|split].
  - intros rules H.
    destruct (proj2 (proj2 (LoadingRules_precedence join_clean
                (os_with [("KUBECONFIG", "/etc/nctl/config")] (Ok "/home/op"))))
                rules H) as [home [Hhome Hp]].
    injection Hhome as <-. exact Hp.
  - intros rules H.
    exact (proj2 (proj2 (LoadingRules_precedence join_clean
             (os_with [("HOME", "/home/op")] (Err (errorString "no user"))))) rules H).
  - apply (proj1 (proj2 (LoadingRules_precedence join_clean
             (os_with [] (Err (errorString "no user")))))).
    split; reflexivity.
Defined.

(** * Further properties of the code *)

(** ** [clusterName] on every input *)

(** A string with exactly one separator is two separator-free parts
    around it. *)
Lemma one_sep_decompose (s : string) (c : ascii) :
  strings.CountString s c = 1 ->
  exists a b, s = a ++ String c b
              /\ strings.CountString a c = 0 /\ strings.CountString b c = 0.
Proof.
  induction s as [|x s IH]; cbn [strings.CountString]; [discriminate|].
  pose proof (CountString_nonneg s c) as Hnn.
  destruct (Ascii.eqb x c) eqn:E.
  - apply Ascii.eqb_eq in E. subst x. intros H.
    exists "", s. repeat split; try reflexivity. lia.
  - intros H. destruct IH as [a [b [Hs [Ha Hb]]]]; [lia|].
    exists (String x a), b. subst s. repeat split; try assumption.
    cbn [strings.CountString]. rewrite E. lia.
Qed.

(** X1: The resolver has one way to fail, and an identity it returns has a
    namespace. *)
Theorem clusterName_outcome (name namespace : string) :
  match auth.clusterName name namespace with
  | Ok nn => types.Namespace nn <> ""
  | Err e => e = auth.namespace_empty
  end.
Proof.
  destruct (Z.eq_dec (strings.CountString name slash) 1) as [Hone|Hnot].
  - destruct (one_sep_decompose name slash Hone) as [a [b [-> [Ha Hb]]]].
    rewrite clusterName_split by assumption.
    destruct (String.eqb b "") eqn:E; [reflexivity|].
    cbn [types.Namespace]. now apply String.eqb_neq.
  - rewrite clusterName_unsplit by assumption.
    destruct (String.eqb namespace "") eqn:E; [reflexivity|].
    cbn [types.Namespace]. now apply String.eqb_neq.
Qed.

(** X2: A trailing ['/'] names the empty namespace: the input is rejected,
    and the ambient namespace does not step in. *)
Theorem clusterName_trailing_slash (name ambient : string) :
  strings.CountString name slash = 0 ->
  auth.clusterName (name ++ "/") ambient = Err auth.namespace_empty.
Proof.
  intros H. change (name ++ "/") with (name ++ String slash "").
  now rewrite clusterName_split.
Qed.

Lemma clusterName_trailing_slash_witness :
  strings.CountString "prod" slash = 0
  /\ auth.clusterName ("prod" ++ "/") "team-a" = Err auth.namespace_empty.
Proof.
  split; [reflexivity|].
  apply (clusterName_trailing_slash "prod" "team-a"). reflexivity.
Defined.

(** X3: With exactly one ['/'] in the input the ambient namespace plays no
    part in the result. *)
Theorem clusterName_one_slash_ignores_ambient (name ambient1 ambient2 : string) :
  strings.CountString name slash = 1 ->
  auth.clusterName name ambient1 = auth.clusterName name ambient2.
Proof.
  intros H. destruct (one_sep_decompose name slash H) as [a [b [-> [Ha Hb]]]].
  now rewrite !clusterName_split.
Qed.

Lemma clusterName_one_slash_ignores_ambient_witness :
  strings.CountString "prod/team-a" slash = 1
  /\ auth.clusterName "prod/team-a" "" = auth.clusterName "prod/team-a" "default".
Proof.
  split; [reflexivity|].
  apply (clusterName_one_slash_ignores_ambient "prod/team-a" "" "default").
  reflexivity.
Defined.

Lemma ContextName_unfold (cluster : infrastructure.KubernetesCluster) :
  auth.ContextName cluster
  = infrastructure.Name cluster ++ String slash (infrastructure.Namespace cluster).
Proof.
  unfold auth.ContextName, fmt.Sprintf.
  cbn [fmt.doPrintf Ascii.eqb Bool.eqb orb andb].
  now rewrite append_empty_r.
Qed.

(** X4: The context name of a cluster is an argument that resolves back to
    the cluster's name and namespace, in every ambient namespace. *)
Theorem ContextName_resolves (cluster : infrastructure.KubernetesCluster)
    (ambient : string) :
  strings.CountString (infrastructure.Name cluster) slash = 0 ->
  strings.CountString (infrastructure.Namespace cluster) slash = 0 ->
  infrastructure.Namespace cluster <> "" ->
  auth.clusterName (auth.ContextName cluster) ambient
  = Ok {| types.Name := infrastructure.Name cluster;
          types.Namespace := infrastructure.Namespace cluster |}.
Proof.
  intros Hn Hns Hne. rewrite ContextName_unfold.
  rewrite clusterName_split by assumption.
  now rewrite eqb_empty_false.
Qed.

Lemma ContextName_resolves_witness :
  auth.clusterName (auth.ContextName well_formed) "default"
  = Ok {| types.Name := "prod"; types.Namespace := "team-a" |}.
Proof.
  apply (ContextName_resolves well_formed "default");
    [reflexivity | reflexivity | discriminate].
Defined.

(** X5: For a name without ['/'] and a client with a namespace, the
    resolver of [auth] and [Client.Name] give the same identity. *)
Theorem clusterName_agrees_with_Client_Name (client : api.Client) (name : string) :
  strings.CountString name slash = 0 ->
  api.Namespace client <> "" ->
  auth.clusterName name (api.Namespace client) = Ok (api_client.Name client name).
Proof.
  intros H Hne. rewrite clusterName_unsplit by lia.
  now rewrite eqb_empty_false.
Qed.

Lemma clusterName_agrees_with_Client_Name_witness :
  auth.clusterName "prod" (api.Namespace (client_returning not_found "team-a"))
  = Ok (api_client.Name (client_returning not_found "team-a") "prod").
Proof.
  apply (clusterName_agrees_with_Client_Name (client_returning not_found "team-a") "prod");
    [reflexivity | discriminate].
Defined.

(** ** [ClusterCmd.Run]: building and logging in *)

Section Run_outcomes.

Context {Config Store : Type}.
Variable newAPIConfig :
  url.URL -> url.URL -> string -> string -> list auth.apiConfigOption -> result Config.
Variable login :
  Config -> string -> list auth.loginOption -> Store -> option error * Store.

Variable a : auth.ClusterCmd.
Variable client : api.Client.
Variable w : auth.World Config Store.

Ltac run_steps :=
  unfold auth.Run, auth.bind, auth.lift, auth.wrapped, auth.call_Get,
    auth.get_os_Args, auth.fail, auth.ret, fmt.Errorf_w, fmt.Errorf.

Section Built.

Variable nn : types.NamespacedName.
Variable cluster : infrastructure.KubernetesCluster.
Variables apiEndpoint issuerURL : url.URL.
Variable caCert arg0 : string.
Variable args : list string.

Hypothesis resolved :
  auth.clusterName (auth.Name a) (api.Namespace client) = Ok nn.
Hypothesis found : api.Get client nn = Ok cluster.
Hypothesis endpoint_ok :
  url.Parse (infrastructure.status_apiEndpoint cluster) = Ok apiEndpoint.
Hypothesis issuer_ok :
  url.Parse (infrastructure.status_oidcIssuerURL cluster) = Ok issuerURL.
Hypothesis cacert_ok :
  base64.DecodeString (infrastructure.status_apiCACert cluster) = Ok caCert.
Hypothesis command_ok : auth.os_Args w = arg0 :: args.

(** From the construction on, the run is the two calls. *)
Lemma Run_from_build :
  auth.Run newAPIConfig login a client w
  = let w1 :=
      auth.record
        (auth.Call_newAPIConfig apiEndpoint issuerURL arg0
           (status_oidcClientID cluster) (build_opts cluster caCert))
        (auth.record (auth.Call_Get nn) w) in
    match newAPIConfig apiEndpoint issuerURL arg0 (status_oidcClientID cluster)
            (build_opts cluster caCert) with
    | Err e => (Err (wrapError "unable to create kubeconfig: " e), w1)
    | Ok cfg =>
        let calls :=
          (auth.calls w1
           ++ [auth.Call_login cfg (api.KubeconfigPath client) (login_opts a)])%list in
        match login cfg (api.KubeconfigPath client) (login_opts a) (auth.kubeconfig w) with
        | (None, store) =>
            (Ok tt,
             {| auth.os_Args := auth.os_Args w; auth.kubeconfig := store;
                auth.calls := calls |})
        | (Some e, store) =>
            (Err (wrapError (login_msg nn) e),
             {| auth.os_Args := auth.os_Args w; auth.kubeconfig := store;
                auth.calls := calls |})
        end
    end.
Proof.
  unfold infrastructure.status_apiEndpoint, infrastructure.status_oidcIssuerURL,
    infrastructure.status_apiCACert in *.
  run_steps. rewrite resolved, found, endpoint_ok. cbv beta iota.
  rewrite issuer_ok. cbv beta iota. rewrite cacert_ok. cbv beta iota.
  unfold auth.record at 1. cbn [auth.os_Args]. rewrite command_ok.
  unfold auth.call_newAPIConfig, build_opts, status_oidcClientID.
  rewrite ContextName_unfold. change (String slash ?x) with ("/" ++ x).
  cbv zeta.
  destruct (newAPIConfig _ _ _ _ _) as [cfg|e]; [|reflexivity].
  unfold auth.call_login, login_opts, login_msg.
  cbn [auth.record auth.kubeconfig auth.os_Args auth.calls].
  destruct (login _ _ _ _) as [[e|] store]; rewrite ?command_ok; reflexivity.
Qed.

(** X6: When every step succeeds the run makes three calls: the lookup,
    [newAPIConfig] with the parsed URLs, the first element of [os.Args],
    the client id, the context name [name/namespace] and the decoded CA
    certificate, and [login] with the client's kubeconfig path; the
    store is what [login] leaves. *)
Theorem Run_success (cfg : Config) (store : Store) :
  newAPIConfig apiEndpoint issuerURL arg0 (status_oidcClientID cluster)
    (build_opts cluster caCert) = Ok cfg ->
  login cfg (api.KubeconfigPath client) (login_opts a) (auth.kubeconfig w)
  = (None, store) ->
  auth.Run newAPIConfig login a client w
  = (Ok tt,
     {| auth.os_Args := auth.os_Args w;
        auth.kubeconfig := store;
        auth.calls :=
          (auth.calls w
           ++ [auth.Call_Get nn;
               auth.Call_newAPIConfig apiEndpoint issuerURL arg0
                 (status_oidcClientID cluster) (build_opts cluster caCert);
               auth.Call_login cfg (api.KubeconfigPath client) (login_opts a)])%list |}).
Proof.
  intros Hbuild Hlogin. rewrite Run_from_build. cbv zeta.
  rewrite Hbuild, Hlogin. cbn [auth.record auth.calls].
  now rewrite <- !app_assoc.
Qed.

(** X7: When [newAPIConfig] fails the run returns its error behind "unable
    to create kubeconfig: "; [login] is not called and the store is as
    before. *)
Theorem Run_build_failed (e : error) :
  newAPIConfig apiEndpoint issuerURL arg0 (status_oidcClientID cluster)
    (build_opts cluster caCert) = Err e ->
  auth.Run newAPIConfig login a client w
  = (Err (wrapError "unable to create kubeconfig: " e),
     {| auth.os_Args := auth.os_Args w;
        auth.kubeconfig := auth.kubeconfig w;
        auth.calls :=
          (auth.calls w
           ++ [auth.Call_Get nn;
               auth.Call_newAPIConfig apiEndpoint issuerURL arg0
                 (status_oidcClientID cluster) (build_opts cluster caCert)])%list |}).
Proof.
  intros Hbuild. rewrite Run_from_build. cbv zeta. rewrite Hbuild.
  unfold auth.record. cbn [auth.calls auth.os_Args auth.kubeconfig].
  now rewrite <- !app_assoc.
Qed.

(** X8: When [login] fails the run returns its error behind a message that
    names the cluster as [namespace/name], and the store stays as
    [login] left it: nothing is rolled back. *)
Theorem Run_login_failed (cfg : Config) (e : error) (store : Store) :
  newAPIConfig apiEndpoint issuerURL arg0 (status_oidcClientID cluster)
    (build_opts cluster caCert) = Ok cfg ->
  login cfg (api.KubeconfigPath client) (login_opts a) (auth.kubeconfig w)
  = (Some e, store) ->
  fst (auth.Run newAPIConfig login a client w)
  = Err (wrapError
           ("error logging in to cluster "
            ++ (types.Namespace nn ++ "/" ++ types.Name nn) ++ ": ") e)
  /\ auth.kubeconfig (snd (auth.Run newAPIConfig login a client w)) = store.
Proof.
  intros Hbuild Hlogin. rewrite Run_from_build. cbv zeta.
  rewrite Hbuild, Hlogin. split; reflexivity.
Qed.

End Built.

(** X9: A lookup that fails ends the run with the error of the resource
    API, unchanged; no other call is made. *)
Theorem Run_lookup_error_verbatim (nn : types.NamespacedName) (e : error) :
  auth.clusterName (auth.Name a) (api.Namespace client) = Ok nn ->
  api.Get client nn = Err e ->
  auth.Run newAPIConfig login a client w = (Err e, auth.record (auth.Call_Get nn) w).
Proof. intros H1 H2. exact (Run_lookup_failed newAPIConfig login a client w nn e H1 H2). Qed.

(** X10: An issuer URL that [url.Parse] rejects, behind an endpoint that it
    accepts, ends the run with the issuer error after the lookup alone. *)
Theorem Run_issuer_invalid (nn : types.NamespacedName)
    (cluster : infrastructure.KubernetesCluster) (e : error) :
  auth.clusterName (auth.Name a) (api.Namespace client) = Ok nn ->
  api.Get client nn = Ok cluster ->
  is_Err (url.Parse (infrastructure.status_apiEndpoint cluster)) = false ->
  url.Parse (infrastructure.status_oidcIssuerURL cluster) = Err e ->
  auth.Run newAPIConfig login a client w
  = (Err (wrapError "invalid cluster OIDC issuer url: " e),
     auth.record (auth.Call_Get nn) w).
Proof.
  intros H1 H2 H3 H4.
  destruct (url.Parse (infrastructure.status_apiEndpoint cluster)) as [u1|] eqn:E1;
    [|discriminate].
  exact (Run_issuer_rejected newAPIConfig login a client w nn cluster H1 H2 u1 e E1 H4).
Qed.

(** Every run is one of four: it stops before the lookup, after the
    lookup, after [newAPIConfig], or it calls [login] and ends with what
    [login] returns. *)
Lemma Run_cases :
  let R := auth.Run newAPIConfig login a client w in
  (exists e, R = (Err e, w))
  \/ (exists e nn, R = (Err e, auth.record (auth.Call_Get nn) w))
  \/ (exists e nn u1 u2 c id o,
        R = (Err e,
             auth.record (auth.Call_newAPIConfig u1 u2 c id o)
               (auth.record (auth.Call_Get nn) w)))
  \/ (exists nn u1 u2 c id o cfg p lo r store,
        login cfg p lo (auth.kubeconfig w) = (r, store)
        /\ R = (match r with
                | None => Ok tt
                | Some e => Err (wrapError (login_msg nn) e)
                end,
                {| auth.os_Args := auth.os_Args w;
                   auth.kubeconfig := store;
                   auth.calls :=
                     (auth.calls w
                      ++ [auth.Call_Get nn; auth.Call_newAPIConfig u1 u2 c id o;
                          auth.Call_login cfg p lo])%list |})).
Proof.
  intros R. subst R.
  destruct (auth.clusterName (auth.Name a) (api.Namespace client))
    as [nn|e] eqn:resolved.
  2:{ left. exists e. exact (Run_invalid_identifier newAPIConfig login a client w e resolved). }
  right.
  destruct (api.Get client nn) as [cluster|e] eqn:found.
  2:{ left. exists e, nn.
      exact (Run_lookup_failed newAPIConfig login a client w nn e resolved found). }
  destruct (url.Parse (infrastructure.status_apiEndpoint cluster)) as [u1|e1] eqn:E1.
  2:{ left. eexists; exists nn.
      exact (Run_endpoint_rejected newAPIConfig login a client w nn cluster
               resolved found e1 E1). }
  destruct (url.Parse (infrastructure.status_oidcIssuerURL cluster)) as [u2|e2] eqn:E2.
  2:{ left. eexists; exists nn.
      exact (Run_issuer_rejected newAPIConfig login a client w nn cluster
               resolved found u1 e2 E1 E2). }
  destruct (base64.DecodeString (infrastructure.status_apiCACert cluster))
    as [ca|e3] eqn:E3.
  2:{ left. eexists; exists nn.
      exact (Run_cacert_rejected newAPIConfig login a client w nn cluster
               resolved found u1 u2 e3 E1 E2 E3). }
  destruct (auth.os_Args w) as [|arg0 args] eqn:Eargs.
  { left. eexists; exists nn.
    exact (Run_no_command newAPIConfig login a client w nn cluster
             resolved found u1 u2 ca E1 E2 E3 Eargs). }
  right.
  rewrite (Run_from_build nn cluster u1 u2 ca arg0 args resolved found E1 E2 E3 Eargs).
  cbv zeta.
  destruct (newAPIConfig u1 u2 arg0 (status_oidcClientID cluster) (build_opts cluster ca))
    as [cfg|e4].
  2:{ left. do 7 eexists. reflexivity. }
  right. exists nn, u1, u2, arg0, (status_oidcClientID cluster), (build_opts cluster ca),
    cfg, (api.KubeconfigPath client), (login_opts a).
  destruct (login cfg (api.KubeconfigPath client) (login_opts a) (auth.kubeconfig w))
    as [r store].
  exists r, store. split; [reflexivity|].
  cbn [auth.record auth.calls]. rewrite <- !app_assoc. cbn [app].
  rewrite ?Eargs. now destruct r.
Qed.

(** X11: A run calls the lookup, [newAPIConfig] and [login] at most once
    each and in this order, and leaves [os.Args] alone. *)
Theorem Run_calls_in_order :
  exists new,
    auth.calls (snd (auth.Run newAPIConfig login a client w))
    = (auth.calls w ++ new)%list
    /\ auth.os_Args (snd (auth.Run newAPIConfig login a client w)) = auth.os_Args w
    /\ (new = []
        \/ (exists nn, new = [auth.Call_Get nn])
        \/ (exists nn u1 u2 c id o,
              new = [auth.Call_Get nn; auth.Call_newAPIConfig u1 u2 c id o])
        \/ (exists nn u1 u2 c id o cfg p lo,
              new = [auth.Call_Get nn; auth.Call_newAPIConfig u1 u2 c id o;
                     auth.Call_login cfg p lo])).
Proof.
  destruct Run_cases as [[e H]|[[e [nn H]]|[[e [nn [u1 [u2 [c [id [o H]]]]]]]|H]]].
  - exists []. rewrite H. cbn [snd]. rewrite app_nil_r. auto.
  - exists [auth.Call_Get nn]. rewrite H. cbn [snd auth.record auth.calls auth.os_Args].
    eauto 6.
  - exists [auth.Call_Get nn; auth.Call_newAPIConfig u1 u2 c id o]. rewrite H.
    cbn [snd auth.record auth.calls auth.os_Args]. rewrite <- app_assoc.
    split; [reflexivity|]. split; [reflexivity|]. right; right; left. eauto 10.
  - destruct H as (nn & u1 & u2 & c & id & o & cfg & p & lo & r & store & _ & H).
    eexists. rewrite H. cbn [snd auth.calls auth.os_Args].
    split; [reflexivity|]. split; [reflexivity|]. do 3 right. eauto 12.
Qed.

(** X12: A run that returns no error has called [login], [login] has
    returned no error, and the store is the one [login] left. *)
Theorem Run_success_needs_login :
  fst (auth.Run newAPIConfig login a client w) = Ok tt ->
  exists nn u1 u2 c id o cfg p lo,
    auth.calls (snd (auth.Run newAPIConfig login a client w))
    = (auth.calls w
       ++ [auth.Call_Get nn; auth.Call_newAPIConfig u1 u2 c id o;
           auth.Call_login cfg p lo])%list
    /\ login cfg p lo (auth.kubeconfig w)
       = (None, auth.kubeconfig (snd (auth.Run newAPIConfig login a client w))).
Proof.
  destruct Run_cases as [[e H]|[[e [nn H]]|[[e [nn [u1 [u2 [c [id [o H]]]]]]]|H]]];
    try (rewrite H; discriminate).
  destruct H as (nn & u1 & u2 & c & id & o & cfg & p & lo & r & store & Hlogin & H).
  rewrite H. cbn [fst snd auth.calls auth.kubeconfig].
  destruct r as [e|]; [discriminate|]. intros _.
  exists nn, u1, u2, c, id, o, cfg, p, lo. split; [reflexivity|exact Hlogin].
Qed.

(** X13: A run that fails before [login] leaves the kubeconfig store as it
    was: only [login] writes. *)
Theorem Run_store_only_by_login (new : list (auth.Call Config)) :
  auth.calls (snd (auth.Run newAPIConfig login a client w))
  = (auth.calls w ++ new)%list ->
  (forall cfg p lo, ~ In (auth.Call_login cfg p lo) new) ->
  auth.kubeconfig (snd (auth.Run newAPIConfig login a client w)) = auth.kubeconfig w.
Proof.
  intros Hcalls Hno.
  destruct Run_cases as [[e H]|[[e [nn H]]|[[e [nn [u1 [u2 [c [id [o H]]]]]]]|H]]];
    try (rewrite H; reflexivity).
  destruct H as (nn & u1 & u2 & c & id & o & cfg & p & lo & r & store & _ & H).
  rewrite H in Hcalls. cbn [snd auth.calls] in Hcalls.
  apply app_inv_head in Hcalls. subst new.
  exfalso. apply (Hno cfg p lo). cbn. auto.
Qed.

End Run_outcomes.

(** ** Runs of [ClusterCmd.Run] that reach the collaborators *)

Lemma Run_success_witness :
  auth.Run stub_newAPIConfig stub_login (prod_cmd "prod")
    (client_returning (Ok well_formed) "team-a") (world_with ["nctl"; "auth"])
  = (Ok tt,
     {| auth.os_Args := ["nctl"; "auth"];
        auth.kubeconfig := ["/home/op/.kube/config"];
        auth.calls :=
          [auth.Call_Get prod_team_a;
           auth.Call_newAPIConfig parsed_endpoint parsed_issuer "nctl" "nctl"
             [auth.overrideName "prod/team-a"; auth.setCACert "cert"];
           auth.Call_login tt "/home/op/.kube/config"
             [auth.runExecPlugin false; auth.switchCurrentContext]] |}).
Proof.
  apply (Run_success stub_newAPIConfig stub_login (prod_cmd "prod")
           (client_returning (Ok well_formed) "team-a") (world_with ["nctl"; "auth"])
           prod_team_a well_formed parsed_endpoint parsed_issuer "cert" "nctl" ["auth"]);
    reflexivity.
Defined.

Lemma Run_build_failed_witness :
  auth.Run failing_newAPIConfig stub_login (prod_cmd "prod")
    (client_returning (Ok well_formed) "team-a") (world_with ["nctl"])
  = (Err (wrapError "unable to create kubeconfig: " (errorString "no issuer")),
     {| auth.os_Args := ["nctl"];
        auth.kubeconfig := [];
        auth.calls :=
          [auth.Call_Get prod_team_a;
           auth.Call_newAPIConfig parsed_endpoint parsed_issuer "nctl" "nctl"
             [auth.overrideName "prod/team-a"; auth.setCACert "cert"]] |}).
Proof.
  apply (Run_build_failed failing_newAPIConfig stub_login (prod_cmd "prod")
           (client_returning (Ok well_formed) "team-a") (world_with ["nctl"])
           prod_team_a well_formed parsed_endpoint parsed_issuer "cert" "nctl" []);
    reflexivity.
Defined.

Lemma Run_login_failed_witness :
  fst (auth.Run stub_newAPIConfig failing_login (prod_cmd "prod")
         (client_returning (Ok well_formed) "team-a") (world_with ["nctl"]))
  = Err (wrapError "error logging in to cluster team-a/prod: "
           (errorString "exec plugin failed"))
  /\ auth.kubeconfig
       (snd (auth.Run stub_newAPIConfig failing_login (prod_cmd "prod")
               (client_returning (Ok well_formed) "team-a") (world_with ["nctl"])))
     = ["/home/op/.kube/config"].
Proof.
  apply (Run_login_failed stub_newAPIConfig failing_login (prod_cmd "prod")
           (client_returning (Ok well_formed) "team-a") (world_with ["nctl"])
           prod_team_a well_formed parsed_endpoint parsed_issuer "cert" "nctl" []
           eq_refl eq_refl eq_refl eq_refl eq_refl eq_refl tt
           (errorString "exec plugin failed") ["/home/op/.kube/config"]);
    reflexivity.
Defined.

Lemma Run_lookup_error_verbatim_witness :
  auth.Run stub_newAPIConfig stub_login (prod_cmd "prod")
    (client_returning not_found "team-a") (world_with ["nctl"])
  = (Err (StatusError "NotFound"),
     auth.record (auth.Call_Get prod_team_a) (world_with ["nctl"])).
Proof.
  apply (Run_lookup_error_verbatim stub_newAPIConfig stub_login (prod_cmd "prod")
           (client_returning not_found "team-a") (world_with ["nctl"]));
    reflexivity.
Defined.

Lemma Run_issuer_invalid_witness :
  auth.Run stub_newAPIConfig stub_login (prod_cmd "prod")
    (client_returning (Ok bad_issuer) "team-a") (world_with ["nctl"])
  = (Err (wrapError "invalid cluster OIDC issuer url: "
            (url_Error "parse" ":" (errorString "missing protocol scheme"))),
     auth.record (auth.Call_Get prod_team_a) (world_with ["nctl"])).
Proof.
  apply (Run_issuer_invalid stub_newAPIConfig stub_login (prod_cmd "prod")
           (client_returning (Ok bad_issuer) "team-a") (world_with ["nctl"])
           prod_team_a bad_issuer);
    reflexivity.
Defined.

Lemma Run_success_needs_login_witness :
  fst (auth.Run stub_newAPIConfig stub_login (prod_cmd "prod")
         (client_returning (Ok well_formed) "team-a") (world_with ["nctl"])) = Ok tt
  /\ exists nn u1 u2 c id o cfg p lo,
       auth.calls
         (snd (auth.Run stub_newAPIConfig stub_login (prod_cmd "prod")
                 (client_returning (Ok well_formed) "team-a") (world_with ["nctl"])))
       = ([] ++ [auth.Call_Get nn; auth.Call_newAPIConfig u1 u2 c id o;
                 auth.Call_login cfg p lo])%list
       /\ stub_login cfg p lo []
          = (None,
             auth.kubeconfig
               (snd (auth.Run stub_newAPIConfig stub_login (prod_cmd "prod")
                       (client_returning (Ok well_formed) "team-a")
                       (world_with ["nctl"])))).
Proof.
  split; [reflexivity|].
  apply (Run_success_needs_login stub_newAPIConfig stub_login (prod_cmd "prod")
           (client_returning (Ok well_formed) "team-a") (world_with ["nctl"])).
  reflexivity.
Defined.

Lemma Run_store_only_by_login_witness :
  auth.kubeconfig
    (snd (auth.Run failing_newAPIConfig stub_login (prod_cmd "prod")
            (client_returning (Ok well_formed) "team-a") (world_with ["nctl"])))
  = [].
Proof.
  apply (Run_store_only_by_login failing_newAPIConfig stub_login (prod_cmd "prod")
           (client_returning (Ok well_formed) "team-a") (world_with ["nctl"])
           [auth.Call_Get prod_team_a;
            auth.Call_newAPIConfig parsed_endpoint parsed_issuer "nctl" "nctl"
              [auth.overrideName "prod/team-a"; auth.setCACert "cert"]]).
  - reflexivity.
  - intros cfg p lo [H|[H|[]]]; discriminate.
Defined.

(** ** [LoadingRules], [loadConfig] and [New] *)

Lemma deduplicate_nonempty (x : string) (rest : list string) :
  api.deduplicate (x :: rest) <> [].
Proof. unfold api.deduplicate. cbn. discriminate. Qed.

Lemma Split_nonempty (s : string) (c : ascii) : strings.Split s c <> [].
Proof.
  pose proof (Split_length s c) as H. pose proof (CountString_nonneg s c).
  destruct (strings.Split s c); [cbn in H; lia|discriminate].
Qed.

Section Config_properties.

Variable filepath_Join : list string -> string.
Variable file_exists : string -> bool.
Variables RestConfig WithWatch Scheme Mapper : Type.
Variable clientConfig_Namespace :
  api.ClientConfigLoadingRules -> api_client.ConfigOverrides -> result string.
Variable clientConfig_ClientConfig :
  api.ClientConfigLoadingRules -> api_client.ConfigOverrides -> result RestConfig.
Variable runtime_NewScheme : Scheme.
Variable apis_AddToScheme : Scheme -> result Scheme.
Variable corev1_AddToScheme : Scheme -> result Scheme.
Variable StaticRESTMapper : Scheme -> Mapper.
Variable NewWithWatch : option RestConfig -> Scheme -> Mapper -> result WithWatch.

(** X14: The rules that [LoadingRules] returns always name at least one
    file. *)
Theorem LoadingRules_precedence_nonempty (os : api.OS)
    (rules : api.ClientConfigLoadingRules) :
  api.LoadingRules filepath_Join os = Ok rules ->
  api.Precedence rules <> [].
Proof.
  assert (Hdefault :
    api.Precedence (api.NewDefaultClientConfigLoadingRules filepath_Join os) <> []).
  { unfold api.NewDefaultClientConfigLoadingRules.
    destruct (negb (len (api.Getenv os api.RecommendedConfigPathEnvVar) =? 0)) eqn:E;
      cbn [api.Precedence app]; [|discriminate].
    unfold api.SplitList. rewrite len_zero in E.
    destruct (String.eqb (api.Getenv os api.RecommendedConfigPathEnvVar) "");
      [discriminate|].
    pose proof (Split_nonempty (api.Getenv os api.RecommendedConfigPathEnvVar) ":") as Hs.
    destruct (strings.Split _ _) as [|x rest]; [congruence|].
    apply deduplicate_nonempty. }
  unfold api.LoadingRules.
  destruct (api.LookupEnv os "HOME").
  - intros H. injection H as <-. exact Hdefault.
  - destruct (api.user_Current os); [|discriminate].
    intros H. injection H as <-. cbn [api.Precedence].
    intros Happ. apply app_eq_nil in Happ. destruct Happ. discriminate.
Qed.

(** The shape of a successful [New] *)
Lemma New_inversion (os : api.OS) (context namespace : string)
    (c : api_client.Client RestConfig WithWatch) :
  api_client.New filepath_Join file_exists RestConfig WithWatch Scheme Mapper
    clientConfig_Namespace clientConfig_ClientConfig runtime_NewScheme
    apis_AddToScheme corev1_AddToScheme StaticRESTMapper NewWithWatch
    os context namespace = Ok c ->
  exists rules ns cfg,
    api.LoadingRules filepath_Join os = Ok rules
    /\ clientConfig_Namespace rules
         {| api_client.Server := ""; api_client.CurrentContext := context |} = Ok ns
    /\ clientConfig_ClientConfig rules
         {| api_client.Server := ""; api_client.CurrentContext := context |} = Ok cfg
    /\ api_client.Config c = Some cfg
    /\ api_client.KubeconfigPath c = api_client.GetDefaultFilename file_exists rules
    /\ api_client.Namespace c = (if String.eqb namespace "" then ns else namespace).
Proof.
  unfold api_client.New, api_client.loadConfig, api_client.loadConfigWithContext.
  destruct (api.LoadingRules filepath_Join os) as [rules|e]; [|discriminate].
  unfold and_then.
  destruct (clientConfig_Namespace rules _) as [ns|e] eqn:Ens; [|discriminate].
  destruct (clientConfig_ClientConfig rules _) as [cfg|e] eqn:Ecfg; [|discriminate].
  cbn [api_client.Config api_client.Namespace api_client.KubeconfigPath].
  destruct (api_client.NewScheme _ _ _ _); [|discriminate].
  destruct (NewWithWatch _ _ _); [|discriminate].
  intros H. injection H as <-. exists rules, ns, cfg.
  repeat split; assumption || reflexivity.
Qed.

(** X15: A namespace given to [New] is the client's namespace; only without
    one does the client take the namespace of the kubeconfig context. *)
Theorem New_namespace (os : api.OS) (context namespace : string)
    (c : api_client.Client RestConfig WithWatch) :
  api_client.New filepath_Join file_exists RestConfig WithWatch Scheme Mapper
    clientConfig_Namespace clientConfig_ClientConfig runtime_NewScheme
    apis_AddToScheme corev1_AddToScheme StaticRESTMapper NewWithWatch
    os context namespace = Ok c ->
  (namespace <> "" -> api_client.Namespace c = namespace)
  /\ (namespace = "" ->
      exists rules,
        api.LoadingRules filepath_Join os = Ok rules
        /\ clientConfig_Namespace rules
             {| api_client.Server := ""; api_client.CurrentContext := context |}
           = Ok (api_client.Namespace c)).
Proof.
  intros H. apply New_inversion in H.
  destruct H as (rules & ns & cfg & Hrules & Hns & _ & _ & _ & Hc). split.
  - intros Hne. now rewrite Hc, (eqb_empty_false _ Hne).
  - intros ->. exists rules. now rewrite Hc.
Qed.

(** X16: The kubeconfig path of a new client is one of the files of the
    loading rules, and an existing one whenever any of them exists. *)
Theorem New_KubeconfigPath (os : api.OS) (context namespace : string)
    (c : api_client.Client RestConfig WithWatch) :
  api_client.New filepath_Join file_exists RestConfig WithWatch Scheme Mapper
    clientConfig_Namespace clientConfig_ClientConfig runtime_NewScheme
    apis_AddToScheme corev1_AddToScheme StaticRESTMapper NewWithWatch
    os context namespace = Ok c ->
  exists rules,
    api.LoadingRules filepath_Join os = Ok rules
    /\ In (api_client.KubeconfigPath c) (api.Precedence rules)
    /\ (forall filename,
          In filename (api.Precedence rules) -> file_exists filename = true ->
          file_exists (api_client.KubeconfigPath c) = true).
Proof.
  intros H. apply New_inversion in H.
  destruct H as (rules & ns & cfg & Hrules & _ & _ & _ & Hpath & _).
  exists rules. split; [exact Hrules|].
  pose proof (LoadingRules_precedence_nonempty os rules Hrules) as Hne.
  rewrite Hpath. unfold api_client.GetDefaultFilename.
  destruct (find file_exists (api.Precedence rules)) as [f|] eqn:Ef.
  - apply find_some in Ef. destruct Ef as [Hin Hex]. split; [exact Hin|]. auto.
  - split.
    + destruct (api.Precedence rules); [congruence|now left].
    + intros filename Hin Hex.
      pose proof (find_none _ _ Ef filename Hin) as Hno. congruence.
Qed.

(** X17: Without [HOME] and without a user database entry [New] fails with
    "could not get current user", whatever [KUBECONFIG] names. *)
Theorem New_fails_without_home (os : api.OS) (context namespace : string) (e : error) :
  api.LookupEnv os "HOME" = None ->
  api.user_Current os = Err e ->
  api_client.New filepath_Join file_exists RestConfig WithWatch Scheme Mapper
    clientConfig_Namespace clientConfig_ClientConfig runtime_NewScheme
    apis_AddToScheme corev1_AddToScheme StaticRESTMapper NewWithWatch
    os context namespace
  = Err (wrapError "could not get current user: " e).
Proof.
  intros Hhome Huser.
  unfold api_client.New, api_client.loadConfig, api.LoadingRules.
  now rewrite Hhome, Huser.
Qed.

End Config_properties.

Lemma LoadingRules_precedence_nonempty_witness :
  api.LoadingRules join_clean (os_with [("KUBECONFIG", ":")] (Ok "/home/op"))
  = Ok {| api.Precedence := [""; "/home/op/.kube/config"];
          api.WarnIfAllMissing := true |}
  /\ [""; "/home/op/.kube/config"] <> [].
Proof.
  split; [reflexivity|].
  apply (LoadingRules_precedence_nonempty join_clean
           (os_with [("KUBECONFIG", ":")] (Ok "/home/op"))
           {| api.Precedence := [""; "/home/op/.kube/config"];
              api.WarnIfAllMissing := true |}).
  reflexivity.
Defined.

Lemma New_namespace_witness :
  stub_New (fun _ => false) (os_with [("HOME", "/home/op")] (Ok "/home/op")) "nine" "dev"
  = Ok {| api_client.client_WithWatch := Some tt;
          api_client.Config := Some "nine";
          api_client.KubeconfigPath := "/home/op/.kube/config";
          api_client.Namespace := "dev" |}
  /\ "dev" <> ""
  /\ api_client.Namespace
       {| api_client.client_WithWatch := Some tt;
          api_client.Config := Some "nine";
          api_client.KubeconfigPath := "/home/op/.kube/config";
          api_client.Namespace := "dev" |} = "dev".
Proof.
  split; [reflexivity|]. split; [discriminate|].
  apply (New_namespace join_clean (fun _ => false) string unit (list string) unit
           stub_Namespace stub_ClientConfig [] (stub_AddToScheme "apis")
           (stub_AddToScheme "corev1") (fun _ => tt) stub_NewWithWatch
           (os_with [("HOME", "/home/op")] (Ok "/home/op")) "nine" "dev");
    [reflexivity | discriminate].
Defined.

Lemma New_KubeconfigPath_witness :
  stub_New (String.eqb "/etc/nctl/b") (os_with [("KUBECONFIG", "/etc/nctl/a:/etc/nctl/b");
                                               ("HOME", "/home/op")] (Ok "/home/op"))
    "nine" ""
  = Ok {| api_client.client_WithWatch := Some tt;
          api_client.Config := Some "nine";
          api_client.KubeconfigPath := "/etc/nctl/b";
          api_client.Namespace := "team-a" |}
  /\ exists rules,
       api.LoadingRules join_clean
         (os_with [("KUBECONFIG", "/etc/nctl/a:/etc/nctl/b"); ("HOME", "/home/op")]
            (Ok "/home/op")) = Ok rules
       /\ In "/etc/nctl/b" (api.Precedence rules)
       /\ (forall filename,
             In filename (api.Precedence rules) ->
             String.eqb "/etc/nctl/b" filename = true ->
             String.eqb "/etc/nctl/b" "/etc/nctl/b" = true).
Proof.
  split; [reflexivity|].
  apply (New_KubeconfigPath join_clean (String.eqb "/etc/nctl/b") string unit
           (list string) unit
           stub_Namespace stub_ClientConfig [] (stub_AddToScheme "apis")
           (stub_AddToScheme "corev1") (fun _ => tt) stub_NewWithWatch
           (os_with [("KUBECONFIG", "/etc/nctl/a:/etc/nctl/b"); ("HOME", "/home/op")]
              (Ok "/home/op")) "nine" ""
           {| api_client.client_WithWatch := Some tt;
              api_client.Config := Some "nine";
              api_client.KubeconfigPath := "/etc/nctl/b";
              api_client.Namespace := "team-a" |}).
  reflexivity.
Defined.

Lemma New_fails_without_home_witness :
  stub_New (fun _ => true)
    (os_with [("KUBECONFIG", "/etc/nctl/a")] (Err (errorString "user: unknown userid 1000")))
    "nine" "dev"
  = Err (wrapError "could not get current user: "
           (errorString "user: unknown userid 1000")).
Proof.
  apply (New_fails_without_home join_clean (fun _ => true) string unit (list string) unit
           stub_Namespace stub_ClientConfig [] (stub_AddToScheme "apis")
           (stub_AddToScheme "corev1") (fun _ => tt) stub_NewWithWatch
           (os_with [("KUBECONFIG", "/etc/nctl/a")]
              (Err (errorString "user: unknown userid 1000"))) "nine" "dev");
    reflexivity.
Defined.

(** ** [get apiserviceaccounts] *)

Lemma Sprintf_row (a b c : string) :
  fmt.Sprintf get.row_format [a; b; c]
  = a ++ get.tab ++ b ++ get.tab ++ c ++ get.newline.
Proof.
  unfold fmt.Sprintf, get.row_format, get.tab, get.newline.
  cbn [append fmt.doPrintf Ascii.eqb Bool.eqb orb andb ascii_of_nat ascii_of_pos
       Pos.of_succ_nat Pos.succ shift].
  reflexivity.
Qed.

Section Get_properties.

Variable full : string.
Variable APIServiceAccountKind : string.
Variable printEmptyMessage_effect :
  string -> string -> api_client.Session -> api_client.Session.
Variable list_answer : api.Client -> bool -> result (list get.APIServiceAccount).
Variable Get_APIServiceAccount_answer :
  types.NamespacedName -> result get.APIServiceAccount.
Variable Get_Secret_answer : types.NamespacedName -> result api_client.Secret.
Variable tabwriter_Flush : string -> string * option error.

Local Notation "'run'" :=
  (get.Run full APIServiceAccountKind printEmptyMessage_effect list_answer
     Get_APIServiceAccount_answer Get_Secret_answer tabwriter_Flush).

Variable asa : get.apiServiceAccountsCmd.
Variable client : api.Client.
Variable cmd : get.Cmd.
Variable s : api_client.Session.

Ltac get_steps :=
  unfold get.Run, get.printToken, get.printKubeconfig, get.print, get.call_Get,
    get.call_list, get.printEmptyMessage, api_client.GetConnectionSecret,
    api_client.call_Get_Secret, api_client.bind, api_client.wrapped,
    api_client.fail, api_client.ret, api_client.Printf, fmt.Errorf, fmt.Errorf_w.

Lemma named (name : string) : name <> "" -> negb (len name =? 0) = true.
Proof. intros H. now rewrite len_zero, (eqb_empty_false _ H). Qed.

Lemma unnamed (name : string) : name = "" -> negb (len name =? 0) = false.
Proof. now intros ->. Qed.

(** X18: A print flag without a name is refused before anything is sent or
    printed. *)
Theorem get_Run_flag_without_name :
  get.Name asa = "" ->
  get.PrintToken asa || get.PrintKubeconfig asa = true ->
  run asa client cmd s
  = (Err (errorString
            "name is not set, token or kubeconfig can only be printed for a single API Service Account"),
     s).
Proof.
  intros Hname Hflag. get_steps. now rewrite (unnamed _ Hname), Hflag.
Qed.

(** X19: A named account is looked up in the client's namespace; when the
    lookup fails its error is returned behind the account's name, and
    nothing is printed. *)
Theorem get_Run_lookup_failed (e : error) :
  get.Name asa <> "" ->
  Get_APIServiceAccount_answer
    {| types.Name := get.Name asa; types.Namespace := api.Namespace client |} = Err e ->
  run asa client cmd s
  = (Err (wrapError ("unable to get API Service Account " ++ get.Name asa ++ ": ") e),
     {| api_client.stdout := api_client.stdout s;
        api_client.requests :=
          (api_client.requests s
           ++ [api_client.Get_APIServiceAccount
                 {| types.Name := get.Name asa;
                    types.Namespace := api.Namespace client |}])%list |}).
Proof.
  intros Hname Hget. get_steps. rewrite (named _ Hname).
  unfold api_client.Name. now rewrite Hget.
Qed.

Section Found.

Variable sa : get.APIServiceAccount.
Hypothesis has_name : get.Name asa <> "".
Hypothesis found :
  Get_APIServiceAccount_answer
    {| types.Name := get.Name asa; types.Namespace := api.Namespace client |} = Ok sa.

(** The session after the lookup of the account *)
Lemma get_Run_found :
  run asa client cmd s
  = let s1 := api_client.send
                (api_client.Get_APIServiceAccount
                   {| types.Name := get.Name asa;
                      types.Namespace := api.Namespace client |}) s in
    if get.PrintToken asa
    then get.printToken Get_Secret_answer client sa s1
    else if get.PrintKubeconfig asa
         then get.printKubeconfig Get_Secret_answer client sa s1
         else get.print tabwriter_Flush [sa] (String.eqb (get.Output cmd) full) s1.
Proof.
  unfold get.Run, api_client.bind, api_client.wrapped, get.call_Get, api_client.Name.
  rewrite (named _ has_name), found.
  destruct (get.PrintToken asa), (get.PrintKubeconfig asa); reflexivity.
Qed.

(** X20: Without a print flag the named account is shown as a table of one
    row, with the header row exactly when the output format is [full];
    the result is the error of the tabwriter's [Flush]. *)
Theorem get_Run_shows_account :
  get.PrintToken asa = false ->
  get.PrintKubeconfig asa = false ->
  run asa client cmd s
  = (match snd (tabwriter_Flush
                  ((if String.eqb (get.Output cmd) full
                    then "NAME" ++ get.tab ++ "NAMESPACE" ++ get.tab ++ "ROLE"
                         ++ get.newline
                    else "")
                   ++ get.sa_Name sa ++ get.tab ++ get.sa_Namespace sa ++ get.tab
                   ++ get.Role sa ++ get.newline)) with
     | None => Ok tt
     | Some e => Err e
     end,
     {| api_client.stdout :=
          api_client.stdout s
          ++ fst (tabwriter_Flush
                    ((if String.eqb (get.Output cmd) full
                      then "NAME" ++ get.tab ++ "NAMESPACE" ++ get.tab ++ "ROLE"
                           ++ get.newline
                      else "")
                     ++ get.sa_Name sa ++ get.tab ++ get.sa_Namespace sa ++ get.tab
                     ++ get.Role sa ++ get.newline));
        api_client.requests :=
          (api_client.requests s
           ++ [api_client.Get_APIServiceAccount
                 {| types.Name := get.Name asa;
                    types.Namespace := api.Namespace client |}])%list |}).
Proof.
  intros Ht Hk. rewrite get_Run_found, Ht, Hk. cbv zeta.
  unfold get.print, get.cells. cbn [map String.concat].
  rewrite !Sprintf_row.
  destruct (String.eqb (get.Output cmd) full);
    destruct (tabwriter_Flush _) as [text err]; reflexivity.
Qed.

(** X21: An account without a connection secret reference has no token and
    no kubeconfig to print: the run fails after the one lookup, and the
    error names the account. *)
Theorem get_Run_no_secret_ref :
  get.PrintToken asa || get.PrintKubeconfig asa = true ->
  get.WriteConnectionSecretToReference sa = None ->
  run asa client cmd s
  = (Err (wrapError "unable to get connection secret: "
            (errorString
               ("*v1alpha1.APIServiceAccount " ++ get.sa_Name sa ++ "/"
                ++ get.sa_Namespace sa ++ " has no connection secret ref set"))),
     api_client.send
       (api_client.Get_APIServiceAccount
          {| types.Name := get.Name asa; types.Namespace := api.Namespace client |}) s).
Proof.
  intros Hflag Href. rewrite get_Run_found. cbv zeta.
  destruct (get.PrintToken asa); [|cbn [orb] in Hflag; rewrite Hflag];
    get_steps; cbn [get.Managed_of api_client.GetWriteConnectionSecretToReference];
    rewrite Href; reflexivity.
Qed.

Section With_secret_ref.

Variable ref : api_client.SecretReference.
Hypothesis has_ref : get.WriteConnectionSecretToReference sa = Some ref.

(** X22: When the lookup of the secret fails, its error is returned behind
    two messages, the inner one naming the secret as
    [namespace/name]; nothing is printed. *)
Theorem get_Run_secret_lookup_failed (e : error) :
  get.PrintToken asa || get.PrintKubeconfig asa = true ->
  Get_Secret_answer
    {| types.Name := api_client.ref_Name ref;
       types.Namespace := api_client.ref_Namespace ref |} = Err e ->
  run asa client cmd s
  = (Err (wrapError "unable to get connection secret: "
            (wrapError
               ("unable to get referenced secret "
                ++ (api_client.ref_Namespace ref ++ "/" ++ api_client.ref_Name ref)
                ++ ": ") e)),
     {| api_client.stdout := api_client.stdout s;
        api_client.requests :=
          (api_client.requests s
           ++ [api_client.Get_APIServiceAccount
                 {| types.Name := get.Name asa;
                    types.Namespace := api.Namespace client |};
               api_client.Get_Secret
                 {| types.Name := api_client.ref_Name ref;
                    types.Namespace := api_client.ref_Namespace ref |}])%list |}).
Proof.
  intros Hflag Hsecret. rewrite get_Run_found. cbv zeta.
  destruct (get.PrintToken asa); [|cbn [orb] in Hflag; rewrite Hflag];
    get_steps; cbn [get.Managed_of api_client.GetWriteConnectionSecretToReference];
    rewrite has_ref, Hsecret; unfold api_client.send;
    cbn [api_client.stdout api_client.requests];
    rewrite <- app_assoc; reflexivity.
Qed.

(** X23: With [PrintToken] set the run prints the token of the connection
    secret and a line end, whether or not [PrintKubeconfig] is set too;
    the secret is looked up under the name and namespace of the
    account's reference. *)
Theorem get_Run_prints_token (secret : api_client.Secret) (token : string) :
  get.PrintToken asa = true ->
  Get_Secret_answer
    {| types.Name := api_client.ref_Name ref;
       types.Namespace := api_client.ref_Namespace ref |} = Ok secret ->
  api_client.Data secret "token" = Some token ->
  run asa client cmd s
  = (Ok tt,
     {| api_client.stdout := api_client.stdout s ++ token ++ get.newline;
        api_client.requests :=
          (api_client.requests s
           ++ [api_client.Get_APIServiceAccount
                 {| types.Name := get.Name asa;
                    types.Namespace := api.Namespace client |};
               api_client.Get_Secret
                 {| types.Name := api_client.ref_Name ref;
                    types.Namespace := api_client.ref_Namespace ref |}])%list |}).
Proof.
  intros Hflag Hsecret Htoken. rewrite get_Run_found, Hflag. cbv zeta.
  get_steps. cbn [get.Managed_of api_client.GetWriteConnectionSecretToReference].
  rewrite has_ref, Hsecret. unfold get.tokenKey. rewrite Htoken.
  unfold api_client.send. cbn [api_client.stdout api_client.requests].
  rewrite <- app_assoc. reflexivity.
Qed.

(** X24: A secret without the key ["token"] gives an error that names the
    account; nothing is printed. *)
Theorem get_Run_token_missing (secret : api_client.Secret) :
  get.PrintToken asa = true ->
  Get_Secret_answer
    {| types.Name := api_client.ref_Name ref;
       types.Namespace := api_client.ref_Namespace ref |} = Ok secret ->
  api_client.Data secret "token" = None ->
  fst (run asa client cmd s)
  = Err (errorString
           ("secret of API Service Account " ++ get.sa_Name sa ++ " has no token"))
  /\ api_client.stdout (snd (run asa client cmd s)) = api_client.stdout s.
Proof.
  intros Hflag Hsecret Htoken. rewrite get_Run_found, Hflag. cbv zeta.
  get_steps. cbn [get.Managed_of api_client.GetWriteConnectionSecretToReference].
  rewrite has_ref, Hsecret. unfold get.tokenKey. rewrite Htoken.
  split; reflexivity.
Qed.

(** X25: With [PrintKubeconfig] alone the run prints the kubeconfig of the
    connection secret as it is, with no line end added. *)
Theorem get_Run_prints_kubeconfig (secret : api_client.Secret) (kc : string) :
  get.PrintToken asa = false ->
  get.PrintKubeconfig asa = true ->
  Get_Secret_answer
    {| types.Name := api_client.ref_Name ref;
       types.Namespace := api_client.ref_Namespace ref |} = Ok secret ->
  api_client.Data secret "kubeconfig" = Some kc ->
  fst (run asa client cmd s) = Ok tt
  /\ api_client.stdout (snd (run asa client cmd s)) = api_client.stdout s ++ kc.
Proof.
  intros Ht Hk Hsecret Hkc. rewrite get_Run_found, Ht, Hk. cbv zeta.
  get_steps. cbn [get.Managed_of api_client.GetWriteConnectionSecretToReference].
  rewrite has_ref, Hsecret. unfold get.kubeconfigKey. rewrite Hkc.
  split; [reflexivity|].
  cbn [snd api_client.stdout api_client.send]. unfold fmt.Sprintf.
  cbn [fmt.doPrintf Ascii.eqb Bool.eqb orb andb]. now rewrite append_empty_r.
Qed.

End With_secret_ref.

End Found.

(** X26: Listing: an error of [list] ends the run unchanged, and nothing is
    printed. *)
Theorem get_Run_list_failed (e : error) :
  get.Name asa = "" ->
  get.PrintToken asa = false ->
  get.PrintKubeconfig asa = false ->
  list_answer client (get.AllNamespaces cmd) = Err e ->
  run asa client cmd s
  = (Err e,
     api_client.send (api_client.List_APIServiceAccounts (get.AllNamespaces cmd)) s).
Proof.
  intros Hname Ht Hk Hlist. get_steps.
  now rewrite (unnamed _ Hname), Ht, Hk, Hlist.
Qed.

(** X27: Listing: an empty list is no error; the run leaves the message of
    [printEmptyMessage] for the kind and the client's namespace and
    writes no table. *)
Theorem get_Run_list_empty :
  get.Name asa = "" ->
  get.PrintToken asa = false ->
  get.PrintKubeconfig asa = false ->
  list_answer client (get.AllNamespaces cmd) = Ok [] ->
  run asa client cmd s
  = (Ok tt,
     printEmptyMessage_effect APIServiceAccountKind (api.Namespace client)
       (api_client.send
          (api_client.List_APIServiceAccounts (get.AllNamespaces cmd)) s)).
Proof.
  intros Hname Ht Hk Hlist. get_steps.
  now rewrite (unnamed _ Hname), Ht, Hk, Hlist.
Qed.

(** X28: Listing: every account found is written to the tabwriter as a
    row name, namespace, role, in the order of the list, behind the
    header row exactly when the output format is [full]; the result is
    the error of [Flush]. *)
Theorem get_Run_lists_accounts (items : list get.APIServiceAccount) :
  get.Name asa = "" ->
  get.PrintToken asa = false ->
  get.PrintKubeconfig asa = false ->
  list_answer client (get.AllNamespaces cmd) = Ok items ->
  items <> [] ->
  run asa client cmd s
  = (match snd (tabwriter_Flush
                  ((if String.eqb (get.Output cmd) full
                    then "NAME" ++ get.tab ++ "NAMESPACE" ++ get.tab ++ "ROLE"
                         ++ get.newline
                    else "")
                   ++ String.concat ""
                        (map (fun sa =>
                                get.sa_Name sa ++ get.tab ++ get.sa_Namespace sa
                                ++ get.tab ++ get.Role sa ++ get.newline)
                           items))) with
     | None => Ok tt
     | Some e => Err e
     end,
     {| api_client.stdout :=
          api_client.stdout s
          ++ fst (tabwriter_Flush
                    ((if String.eqb (get.Output cmd) full
                      then "NAME" ++ get.tab ++ "NAMESPACE" ++ get.tab ++ "ROLE"
                           ++ get.newline
                      else "")
                     ++ String.concat ""
                          (map (fun sa =>
                                  get.sa_Name sa ++ get.tab ++ get.sa_Namespace sa
                                  ++ get.tab ++ get.Role sa ++ get.newline)
                             items)));
        api_client.requests :=
          (api_client.requests s
           ++ [api_client.List_APIServiceAccounts (get.AllNamespaces cmd)])%list |}).
Proof.
  intros Hname Ht Hk Hlist Hne. get_steps.
  rewrite (unnamed _ Hname), Ht, Hk, Hlist. cbn [orb].
  destruct items as [|sa items']; [congruence|].
  replace (Z.of_nat (List.length (sa :: items')) =? 0) with false
    by (symmetry; apply Z.eqb_neq; cbn [List.length]; lia).
  unfold get.cells.
  rewrite (map_ext _ _ (fun sa0 => Sprintf_row (get.sa_Name sa0)
                                     (get.sa_Namespace sa0) (get.Role sa0))).
  destruct (String.eqb (get.Output cmd) full); rewrite ?Sprintf_row;
    destruct (tabwriter_Flush _) as [text err]; reflexivity.
Qed.

End Get_properties.

Lemma rows_line_count (sas : list get.APIServiceAccount) :
  Forall one_line sas ->
  strings.CountString
    (String.concat ""
       (map (fun sa =>
               fmt.Sprintf get.row_format
                 [get.sa_Name sa; get.sa_Namespace sa; get.Role sa]) sas))
    line_end
  = Z.of_nat (List.length sas).
Proof.
  induction 1 as [|sa sas [Hn [Hns Hr]] Hall IH]; [reflexivity|].
  cbn [map String.concat List.length].
  assert (Hrow :
    strings.CountString
      (fmt.Sprintf get.row_format [get.sa_Name sa; get.sa_Namespace sa; get.Role sa])
      line_end = 1).
  { rewrite Sprintf_row, !CountString_app, Hn, Hns, Hr. reflexivity. }
  destruct (map _ sas) eqn:Emap.
  - destruct sas; [|discriminate]. exact Hrow.
  - rewrite !CountString_app, Hrow, IH. cbn [strings.CountString]. lia.
Qed.

(** X29: The cells that [print] writes hold one line per account, and one
    more for the header, when no field of an account holds a line end. *)
Theorem cells_line_count (sas : list get.APIServiceAccount) (header : bool) :
  Forall one_line sas ->
  strings.CountString (get.cells sas header) line_end
  = Z.of_nat (List.length sas) + (if header then 1 else 0).
Proof.
  intros Hall. unfold get.cells. rewrite CountString_app, rows_line_count by assumption.
  destruct header.
  - replace (strings.CountString
               (fmt.Sprintf get.row_format ["NAME"; "NAMESPACE"; "ROLE"]) line_end)
      with 1 by reflexivity.
    lia.
  - cbn [strings.CountString]. lia.
Qed.

(** ** Runs of [get apiserviceaccounts] *)

Lemma get_Run_flag_without_name_witness :
  stub_get_Run not_found_account (Ok ci_secret) (Ok [])
    (asa_cmd "" false true) team_a_client full_output empty_session
  = (Err (errorString
            "name is not set, token or kubeconfig can only be printed for a single API Service Account"),
     empty_session).
Proof.
  apply (get_Run_flag_without_name "full" "APIServiceAccount" stub_emptyMessage
           (fun _ _ => Ok []) (fun _ => not_found_account) (fun _ => Ok ci_secret)
           stub_Flush (asa_cmd "" false true) team_a_client full_output empty_session);
    reflexivity.
Defined.

Lemma get_Run_lookup_failed_witness :
  stub_get_Run not_found_account (Ok ci_secret) (Ok [])
    (asa_cmd "ci" false false) team_a_client full_output empty_session
  = (Err (wrapError "unable to get API Service Account ci: " (StatusError "NotFound")),
     {| api_client.stdout := "";
        api_client.requests := [api_client.Get_APIServiceAccount ci_key] |}).
Proof.
  apply (get_Run_lookup_failed "full" "APIServiceAccount" stub_emptyMessage
           (fun _ _ => Ok []) (fun _ => not_found_account) (fun _ => Ok ci_secret)
           stub_Flush (asa_cmd "ci" false false) team_a_client full_output
           empty_session (StatusError "NotFound"));
    [discriminate | reflexivity].
Defined.

Lemma get_Run_shows_account_witness :
  stub_get_Run (Ok (ci_account None)) (Ok ci_secret) (Ok [])
    (asa_cmd "ci" false false) team_a_client full_output empty_session
  = (Ok tt,
     {| api_client.stdout :=
          "NAME" ++ get.tab ++ "NAMESPACE" ++ get.tab ++ "ROLE" ++ get.newline
          ++ "ci" ++ get.tab ++ "team-a" ++ get.tab ++ "admin" ++ get.newline;
        api_client.requests := [api_client.Get_APIServiceAccount ci_key] |}).
Proof.
  apply (get_Run_shows_account "full" "APIServiceAccount" stub_emptyMessage
           (fun _ _ => Ok []) (fun _ => Ok (ci_account None)) (fun _ => Ok ci_secret)
           stub_Flush (asa_cmd "ci" false false) team_a_client full_output
           empty_session (ci_account None));
    [discriminate | reflexivity | reflexivity | reflexivity].
Defined.

Lemma get_Run_no_secret_ref_witness :
  stub_get_Run (Ok (ci_account None)) (Ok ci_secret) (Ok [])
    (asa_cmd "ci" true false) team_a_client full_output empty_session
  = (Err (wrapError "unable to get connection secret: "
            (errorString
               "*v1alpha1.APIServiceAccount ci/team-a has no connection secret ref set")),
     {| api_client.stdout := "";
        api_client.requests := [api_client.Get_APIServiceAccount ci_key] |}).
Proof.
  apply (get_Run_no_secret_ref "full" "APIServiceAccount" stub_emptyMessage
           (fun _ _ => Ok []) (fun _ => Ok (ci_account None)) (fun _ => Ok ci_secret)
           stub_Flush (asa_cmd "ci" true false) team_a_client full_output
           empty_session (ci_account None));
    [discriminate | reflexivity | reflexivity | reflexivity].
Defined.

Lemma get_Run_secret_lookup_failed_witness :
  stub_get_Run (Ok (ci_account (Some ci_secret_ref))) (Err (StatusError "Forbidden"))
    (Ok []) (asa_cmd "ci" false true) team_a_client full_output empty_session
  = (Err (wrapError "unable to get connection secret: "
            (wrapError "unable to get referenced secret secrets/ci-credentials: "
               (StatusError "Forbidden"))),
     {| api_client.stdout := "";
        api_client.requests :=
          [api_client.Get_APIServiceAccount ci_key;
           api_client.Get_Secret ci_secret_key] |}).
Proof.
  apply (get_Run_secret_lookup_failed "full" "APIServiceAccount" stub_emptyMessage
           (fun _ _ => Ok []) (fun _ => Ok (ci_account (Some ci_secret_ref)))
           (fun _ => Err (StatusError "Forbidden")) stub_Flush
           (asa_cmd "ci" false true) team_a_client full_output empty_session
           (ci_account (Some ci_secret_ref)) ltac:(discriminate) eq_refl
           ci_secret_ref eq_refl (StatusError "Forbidden"));
    reflexivity.
Defined.

Lemma get_Run_prints_token_witness :
  stub_get_Run (Ok (ci_account (Some ci_secret_ref))) (Ok ci_secret) (Ok [])
    (asa_cmd "ci" true true) team_a_client full_output empty_session
  = (Ok tt,
     {| api_client.stdout := "s3cr3t" ++ get.newline;
        api_client.requests :=
          [api_client.Get_APIServiceAccount ci_key;
           api_client.Get_Secret ci_secret_key] |}).
Proof.
  apply (get_Run_prints_token "full" "APIServiceAccount" stub_emptyMessage
           (fun _ _ => Ok []) (fun _ => Ok (ci_account (Some ci_secret_ref)))
           (fun _ => Ok ci_secret) stub_Flush
           (asa_cmd "ci" true true) team_a_client full_output empty_session
           (ci_account (Some ci_secret_ref)) ltac:(discriminate) eq_refl
           ci_secret_ref eq_refl ci_secret "s3cr3t");
    reflexivity.
Defined.

Lemma get_Run_token_missing_witness :
  fst (stub_get_Run (Ok (ci_account (Some ci_secret_ref))) (Ok (secret_of [])) (Ok [])
         (asa_cmd "ci" true false) team_a_client full_output empty_session)
  = Err (errorString "secret of API Service Account ci has no token")
  /\ api_client.stdout
       (snd (stub_get_Run (Ok (ci_account (Some ci_secret_ref))) (Ok (secret_of []))
               (Ok []) (asa_cmd "ci" true false) team_a_client full_output
               empty_session))
     = "".
Proof.
  apply (get_Run_token_missing "full" "APIServiceAccount" stub_emptyMessage
           (fun _ _ => Ok []) (fun _ => Ok (ci_account (Some ci_secret_ref)))
           (fun _ => Ok (secret_of [])) stub_Flush
           (asa_cmd "ci" true false) team_a_client full_output empty_session
           (ci_account (Some ci_secret_ref)) ltac:(discriminate) eq_refl
           ci_secret_ref eq_refl (secret_of []));
    reflexivity.
Defined.

Lemma get_Run_prints_kubeconfig_witness :
  fst (stub_get_Run (Ok (ci_account (Some ci_secret_ref))) (Ok ci_secret) (Ok [])
         (asa_cmd "ci" false true) team_a_client full_output empty_session)
  = Ok tt
  /\ api_client.stdout
       (snd (stub_get_Run (Ok (ci_account (Some ci_secret_ref))) (Ok ci_secret)
               (Ok []) (asa_cmd "ci" false true) team_a_client full_output
               empty_session))
     = "" ++ "apiVersion: v1".
Proof.
  apply (get_Run_prints_kubeconfig "full" "APIServiceAccount" stub_emptyMessage
           (fun _ _ => Ok []) (fun _ => Ok (ci_account (Some ci_secret_ref)))
           (fun _ => Ok ci_secret) stub_Flush
           (asa_cmd "ci" false true) team_a_client full_output empty_session
           (ci_account (Some ci_secret_ref)) ltac:(discriminate) eq_refl
           ci_secret_ref eq_refl ci_secret "apiVersion: v1");
    reflexivity.
Defined.

Lemma get_Run_list_failed_witness :
  stub_get_Run not_found_account (Ok ci_secret) (Err (StatusError "Forbidden"))
    (asa_cmd "" false false) team_a_client full_output empty_session
  = (Err (StatusError "Forbidden"),
     {| api_client.stdout := "";
        api_client.requests := [api_client.List_APIServiceAccounts false] |}).
Proof.
  apply (get_Run_list_failed "full" "APIServiceAccount" stub_emptyMessage
           (fun _ _ => Err (StatusError "Forbidden")) (fun _ => not_found_account)
           (fun _ => Ok ci_secret) stub_Flush
           (asa_cmd "" false false) team_a_client full_output empty_session
           (StatusError "Forbidden"));
    reflexivity.
Defined.

Lemma get_Run_list_empty_witness :
  stub_get_Run not_found_account (Ok ci_secret) (Ok [])
    (asa_cmd "" false false) team_a_client full_output empty_session
  = (Ok tt,
     {| api_client.stdout := "no APIServiceAccount found in team-a";
        api_client.requests := [api_client.List_APIServiceAccounts false] |}).
Proof.
  apply (get_Run_list_empty "full" "APIServiceAccount" stub_emptyMessage
           (fun _ _ => Ok []) (fun _ => not_found_account)
           (fun _ => Ok ci_secret) stub_Flush
           (asa_cmd "" false false) team_a_client full_output empty_session);
    reflexivity.
Defined.

Lemma get_Run_lists_accounts_witness :
  stub_get_Run not_found_account (Ok ci_secret) (Ok [ci_account None; deploy_account])
    (asa_cmd "" false false) team_a_client
    {| get.Output := "no-header"; get.AllNamespaces := true |} empty_session
  = (Ok tt,
     {| api_client.stdout :=
          "ci" ++ get.tab ++ "team-a" ++ get.tab ++ "admin" ++ get.newline
          ++ "deploy" ++ get.tab ++ "team-b" ++ get.tab ++ "viewer" ++ get.newline;
        api_client.requests := [api_client.List_APIServiceAccounts true] |}).
Proof.
  apply (get_Run_lists_accounts "full" "APIServiceAccount" stub_emptyMessage
           (fun _ _ => Ok [ci_account None; deploy_account])
           (fun _ => not_found_account) (fun _ => Ok ci_secret) stub_Flush
           (asa_cmd "" false false) team_a_client
           {| get.Output := "no-header"; get.AllNamespaces := true |} empty_session
           [ci_account None; deploy_account]);
    try reflexivity. discriminate.
Defined.

Lemma cells_line_count_witness :
  Forall one_line [ci_account None; ci_account (Some ci_secret_ref)]
  /\ strings.CountString
       (get.cells [ci_account None; ci_account (Some ci_secret_ref)] true) line_end
     = 3.
Proof.
  assert (H : Forall one_line [ci_account None; ci_account (Some ci_secret_ref)])
    by (repeat constructor).
  split; [exact H|].
  exact (cells_line_count [ci_account None; ci_account (Some ci_secret_ref)] true H).
Defined.
